(** * BookLeaf frontend: token stores, API client and chat controllers

    A shallow embedding of the client-side session and chat core of the
    repository:

    - [AuthClient]  : lib/auth-client  (getToken / setToken / clearToken)
    - [UseToken]    : lib/use-token    (the useToken hook)
    - [Api]         : lib/api          (loginRequest / chatRequest)
    - [ChatUI]      : components/chat-ui.tsx  (the token-requiring chat panel)
    - [ChatPage]    : the guest-capable chat page built on [Api] and [UseToken]
    - [AuthForm]    : the entry form (login and register) over [AuthClient]
    - [LoginForm], [RegisterForm] : components/auth, over [Api] and [UseToken]
    - [Navbar]      : components/navbar.tsx, with a [useToken()] of its own

    React state is a record, a state setter is a record update, an async
    function is split at its first [await] into the synchronous prefix
    (which issues the request) and the continuation run on the outcome of
    the request. The browser (local storage, router, network) is an
    explicit [World] threaded through every operation. *)

From Stdlib Require Import ZArith NArith String Ascii List Bool Lia.
From Stdlib Require Import DecimalString PrimFloat.
From stdpp Require Import base option list gmap strings.

Import ListNotations.
Local Open Scope string_scope.
Set Warnings "-register-all".

(** ** JavaScript values and built-ins used by the sources *)

Module JS.

(** Strings are sequences of code units; a Rocq [ascii] is one code unit
    below 256. The WhiteSpace and LineTerminator code units of ECMAScript
    in that range are TAB, LF, VT, FF, CR, SP and NBSP. *)
Definition is_white_space (c : ascii) : bool :=
  match N_of_ascii c with
  | 9%N | 10%N | 11%N | 12%N | 13%N | 32%N | 160%N => true
  | _ => false
  end.

Fixpoint trimStart (s : string) : string :=
  match s with
  | EmptyString => EmptyString
  | String c s' => if is_white_space c then trimStart s' else s
  end.

Fixpoint trimEnd (s : string) : string :=
  match s with
  | EmptyString => EmptyString
  | String c s' =>
      match trimEnd s' with
      | EmptyString =>
          if is_white_space c then EmptyString else String c EmptyString
      | t => String c t
      end
  end.

(** [String.prototype.trim] *)
Definition trim (s : string) : string := trimEnd (trimStart s).

(** Truthiness of a string: only the empty string is falsy. *)
Definition str_truthy (s : string) : bool :=
  match s with EmptyString => false | _ => true end.

(** The values that [JSON.parse] and property access can produce. *)
Inductive Val : Type :=
| VUndef
| VNull
| VBool (b : bool)
| VNum (x : float)
| VStr (s : string)
| VArr (l : list Val)
| VObj (m : gmap string Val).

(** ToBoolean *)
Definition truthy (v : Val) : bool :=
  match v with
  | VUndef | VNull => false
  | VBool b => b
  | VNum x => negb (PrimFloat.eqb x 0%float || PrimFloat.is_nan x)
  | VStr s => str_truthy s
  | VArr _ | VObj _ => true
  end.

(** [a || b] *)
Definition or_else (a b : Val) : Val := if truthy a then a else b.

(** [v?.k] for a property name [k] that no built-in prototype defines
    (every name the sources read is of this kind): an own property of
    an object, [undefined] on everything else. *)
Definition get (v : Val) (k : string) : Val :=
  match v with
  | VObj m => default VUndef (m !! k)
  | _ => VUndef
  end.

(** SameValueZero, the equality of [Set]. Objects and arrays are compared
    by identity: two values taken from different places of a parsed body
    are different objects. *)
Definition same_value_zero (a b : Val) : bool :=
  match a, b with
  | VUndef, VUndef => true
  | VNull, VNull => true
  | VBool x, VBool y => Bool.eqb x y
  | VNum x, VNum y =>
      PrimFloat.eqb x y || (PrimFloat.is_nan x && PrimFloat.is_nan y)
  | VStr x, VStr y => String.eqb x y
  | _, _ => false
  end.

(** A [Set] is its elements in insertion order. *)
Definition Set_has (s : list Val) (v : Val) : bool :=
  existsb (same_value_zero v) s.

Definition Set_add (s : list Val) (v : Val) : list Val :=
  if Set_has s v then s else s ++ [v].

(** [new Set(iterable)] *)
Definition Set_new (l : list Val) : list Val := fold_left Set_add l [].

(** [Array.from(set)] *)
Definition Array_from (s : list Val) : list Val := s.

(** [`${n}`] for a non-negative integer. *)
Definition num_to_string (n : N) : string :=
  NilEmpty.string_of_uint (N.to_uint n).

End JS.

Import JS.

(** ** The browser: storage, router, network *)

(** The outcome of a call that may throw, or of an awaited promise: a value
    or the thrown value. *)
Inductive Settled (A : Type) : Type :=
| Fulfilled (a : A)
| Rejected (e : Val).
Arguments Fulfilled {A} a.
Arguments Rejected {A} e.

(** [new Error(message)], as far as the sources look at it. *)
Definition Error (message : string) : Val :=
  VObj {[ "message" := VStr message ]}.

(** [a || b] on strings. *)
Definition str_or (a b : string) : string := if str_truthy a then a else b.

(** [window.localStorage]. Access to it may be denied (every operation
    throws), and a write may exceed the quota ([setItem] throws). *)
Record Storage : Type := {
  items : gmap string string;
  access_denied : bool;
  quota_exceeded : bool
}.

Definition getItem (s : Storage) (k : string) : Settled (option string) :=
  if access_denied s then Rejected (Error "SecurityError")
  else Fulfilled (items s !! k).

Definition setItem (s : Storage) (k v : string) : Settled Storage :=
  if access_denied s then Rejected (Error "SecurityError")
  else if quota_exceeded s then Rejected (Error "QuotaExceededError")
  else Fulfilled {| items := <[k := v]> (items s);
                    access_denied := access_denied s;
                    quota_exceeded := quota_exceeded s |}.

Definition removeItem (s : Storage) (k : string) : Settled Storage :=
  if access_denied s then Rejected (Error "SecurityError")
  else Fulfilled {| items := delete k (items s);
                    access_denied := access_denied s;
                    quota_exceeded := quota_exceeded s |}.

(** A [fetch] call. [body] is the object handed to [JSON.stringify]. *)
Record Request : Type := {
  url : string;
  method : string;
  headers : gmap string string;
  body : Val
}.

(** A response, as far as the sources read it: [res.text()] may reject
    ([None]), [res.json()] rejects with an error when the body is not
    JSON. *)
Record Response : Type := {
  status : N;
  statusText : string;
  text : option string;
  json : Settled Val
}.

(** [res.ok] *)
Definition ok (res : Response) : bool :=
  (200 <=? status res)%N && (status res <=? 299)%N.

(** What [await fetch(...)] gives: a response, or a transport failure. *)
Definition FetchOutcome : Type := Settled Response.

Record World : Type := {
  has_window : bool;                 (* typeof window !== "undefined" *)
  env_api_base : option string;      (* process.env.NEXT_PUBLIC_API_BASE_URL *)
  not_a_function : string;           (* the engine's TypeError message *)
  localStorage : Storage;
  pushed : list string;              (* router.push calls, oldest first *)
  fetched : list Request             (* fetch calls, oldest first *)
}.

Definition with_storage (s : Storage) (w : World) : World :=
  {| has_window := has_window w; env_api_base := env_api_base w;
     not_a_function := not_a_function w; localStorage := s;
     pushed := pushed w; fetched := fetched w |}.

Definition router_push (path : string) (w : World) : World :=
  {| has_window := has_window w; env_api_base := env_api_base w;
     not_a_function := not_a_function w; localStorage := localStorage w;
     pushed := pushed w ++ [path]; fetched := fetched w |}.

Definition fetch (r : Request) (w : World) : World :=
  {| has_window := has_window w; env_api_base := env_api_base w;
     not_a_function := not_a_function w; localStorage := localStorage w;
     pushed := pushed w; fetched := fetched w ++ [r] |}.

(** The global [localStorage] as the sources use it: where there is no
    window the name is not defined, and reading it throws. *)
Definition localStorage_getItem (w : World) (k : string)
  : Settled (option string) :=
  if has_window w then getItem (localStorage w) k
  else Rejected (Error "localStorage is not defined").

Definition localStorage_setItem (w : World) (k v : string) : Settled World :=
  if has_window w then
    match setItem (localStorage w) k v with
    | Fulfilled s => Fulfilled (with_storage s w)
    | Rejected e => Rejected e
    end
  else Rejected (Error "localStorage is not defined").

Definition localStorage_removeItem (w : World) (k : string) : Settled World :=
  if has_window w then
    match removeItem (localStorage w) k with
    | Fulfilled s => Fulfilled (with_storage s w)
    | Rejected e => Rejected e
    end
  else Rejected (Error "localStorage is not defined").

(** ** lib/auth-client *)

Module AuthClient.

Definition TOKEN_KEY : string := "blp_token".

Definition getToken (w : World) : option string :=
  if negb (has_window w) then None
  else match localStorage_getItem w TOKEN_KEY with
       | Fulfilled v => v
       | Rejected _ => None
       end.

Definition setToken (token : string) (w : World) : World :=
  if negb (has_window w) then w
  else match localStorage_setItem w TOKEN_KEY token with
       | Fulfilled w' => w'
       | Rejected _ => w
       end.

Definition clearToken (w : World) : World :=
  if negb (has_window w) then w
  else match localStorage_removeItem w TOKEN_KEY with
       | Fulfilled w' => w'
       | Rejected _ => w
       end.

End AuthClient.

(** ** lib/use-token *)

Module UseToken.

Definition TOKEN_KEY : string := "access_token".

(** The hook's state: [useState<string | null>(null)]. Every component
    that calls [useToken()] has a state of its own. *)
Definition initial : option string := None.

(** The mount effect. *)
Definition mount (w : World) (token : option string) : option string :=
  match localStorage_getItem w TOKEN_KEY with
  | Fulfilled (Some t) => if str_truthy t then Some t else token
  | Fulfilled None => token
  | Rejected _ => token
  end.

Definition setToken (value : string) (w : World) (token : option string)
  : option string * World :=
  (Some value,
   match localStorage_setItem w TOKEN_KEY value with
   | Fulfilled w' => w'
   | Rejected _ => w
   end).

Definition clearToken (w : World) (token : option string)
  : option string * World :=
  (None,
   match localStorage_removeItem w TOKEN_KEY with
   | Fulfilled w' => w'
   | Rejected _ => w
   end).

(** What a freshly mounted component reads. *)
Definition read (w : World) : option string := mount w initial.

End UseToken.

(** ** lib/api *)

Module Api.

Definition API_BASE (w : World) : string :=
  match env_api_base w with
  | Some b => str_or b "http://localhost:8000"
  | None => "http://localhost:8000"
  end.

(** [loginRequest] up to its first [await]: the request. *)
Definition loginRequest_call (email password : string) (w : World) : World :=
  fetch {| url := API_BASE w ++ "/login";
           method := "POST";
           headers := {[ "Content-Type" := "application/json" ]};
           body := VObj (<[ "email" := VStr email ]>
                         {[ "password" := VStr password ]}) |} w.

(** [loginRequest] after the request has settled. *)
Definition loginRequest_settle (out : FetchOutcome) : Settled Val :=
  match out with
  | Rejected e => Rejected e
  | Fulfilled res =>
      if negb (ok res) then
        let text := match text res with Some t => t | None => "" end in
        Rejected (Error ("Login failed (" ++ num_to_string (status res)
                         ++ "): "
                         ++ str_or text (str_or (statusText res)
                                                "Unknown error")))
      else
        match json res with
        | Rejected e => Rejected e
        | Fulfilled data =>
            if negb (truthy (get data "access_token")) then
              Rejected (Error "Login response missing access_token.")
            else Fulfilled data
        end
  end.

(** [chatRequest] up to its first [await]. [token] is [undefined] or a
    string. *)
Definition chatRequest_headers (token : option string) : gmap string string :=
  let headers : gmap string string :=
    {[ "Content-Type" := "application/json" ]} in
  match token with
  | Some t => if str_truthy t
              then <[ "Authorization" := "Bearer " ++ t ]> headers
              else headers
  | None => headers
  end.

Definition chatRequest_call (query : string) (token : option string)
           (w : World) : World :=
  fetch {| url := API_BASE w ++ "/chat";
           method := "POST";
           headers := chatRequest_headers token;
           body := VObj (<[ "query" := VStr query ]>
                         {[ "verbose" := VBool true ]}) |} w.

Definition chatRequest_settle (out : FetchOutcome) : Settled Val :=
  match out with
  | Rejected e => Rejected e
  | Fulfilled res =>
      if negb (ok res) then
        let text := match text res with Some t => t | None => "" end in
        Rejected (Error ("Chat failed (" ++ num_to_string (status res)
                         ++ "): "
                         ++ str_or text (str_or (statusText res)
                                                "Unknown error")))
      else
        match json res with
        | Rejected e => Rejected e
        | Fulfilled data => Fulfilled data
        end
  end.

End Api.

(** ** Messages of the chat log *)

Inductive Role : Type := user | assistant.

(** [token] as a condition: [null] and the empty string are falsy. *)
Definition held (token : option string) : bool :=
  match token with
  | Some t => str_truthy t
  | None => false
  end.

(** ** components/chat-ui.tsx *)

Module ChatUI.

Definition API_BASE : string := "http://localhost:8000".

(** [tools] is absent on a user message. [id] comes from
    [crypto.randomUUID()], an input of the operations below. *)
Record Message : Type := {
  id : string;
  role : Role;
  content : Val;
  tools : option (list Val)
}.

Record State : Type := {
  token : option string;
  messages : list Message;
  input : string;
  sending : bool;
  error : Val
}.

Definition initial : State :=
  {| token := None; messages := []; input := ""; sending := false;
     error := VNull |}.

Definition setTokenState (t : option string) (st : State) : State :=
  {| token := t; messages := messages st; input := input st;
     sending := sending st; error := error st |}.

Definition setMessages (f : list Message -> list Message) (st : State)
  : State :=
  {| token := token st; messages := f (messages st); input := input st;
     sending := sending st; error := error st |}.

Definition setInput (v : string) (st : State) : State :=
  {| token := token st; messages := messages st; input := v;
     sending := sending st; error := error st |}.

Definition setSending (b : bool) (st : State) : State :=
  {| token := token st; messages := messages st; input := input st;
     sending := b; error := error st |}.

Definition setError (e : Val) (st : State) : State :=
  {| token := token st; messages := messages st; input := input st;
     sending := sending st; error := e |}.

(** The mount effect: read the token or leave for the entry view. *)
Definition mount (st : State) (w : World) : State * World :=
  let t := AuthClient.getToken w in
  if negb (held t) then (st, router_push "/" w)
  else (setTokenState t st, w).

Definition chat_headers (t : string) : gmap string string :=
  <[ "Content-Type" := "application/json" ]>
    {[ "Authorization" := "Bearer " ++ t ]}.

(** [`${token}`] *)
Definition template (t : option string) : string :=
  match t with Some s => s | None => "null" end.

(** [sendMessage] up to [await fetch(...)]. *)
Definition sendMessage_call (uuid : string) (st : State) (w : World)
  : State * World :=
  if negb (str_truthy (trim (input st))) || negb (held (token st))
  then (st, w)
  else
    let st1 := setError VNull st in
    let userMsg := {| id := uuid; role := user;
                      content := VStr (trim (input st));
                      tools := None |} in
    let st2 := setMessages (fun m => (m ++ [userMsg])%list) st1 in
    let st3 := setInput "" st2 in
    let st4 := setSending true st3 in
    (st4,
     fetch {| url := API_BASE ++ "/chat";
              method := "POST";
              headers := chat_headers (template (token st));
              body := VObj (<[ "query" := content userMsg ]>
                            {[ "verbose" := VBool true ]}) |} w).

(** The [catch] and [finally] blocks. *)
Definition caught (e : Val) (st : State) : State :=
  setSending false
    (setError (or_else (get e "message") (VStr "Network error")) st).

(** [sendMessage] from the settlement of the request on. *)
Definition sendMessage_settle (uuid : string) (out : FetchOutcome)
           (st : State) (w : World) : State * World :=
  match out with
  | Rejected e => (caught e st, w)
  | Fulfilled res =>
      let data :=
        match json res with
        | Fulfilled d => d
        | Rejected _ => VObj {[ "error" := VStr "Invalid JSON from server" ]}
        end in
      if (status res =? 401)%N then
        let st1 :=
          setError (VStr "Your session has expired. Please log in again.")
                   st in
        let w1 := AuthClient.clearToken w in
        let w2 := router_push "/" w1 in
        (setSending false st1, w2)
      else if negb (ok res) then
        let detail :=
          or_else (or_else (get data "detail") (get data "error"))
                  (VStr ("Request failed with status "
                         ++ num_to_string (status res))) in
        (setSending false (setError detail st), w)
      else
        match or_else (get data "reasoning_steps") (VArr []) with
        | VArr steps =>
            let tools :=
              Array_from
                (Set_new
                   (List.filter truthy
                      (List.map (fun s => get s "tool") steps))) in
            let assistantMsg :=
              {| id := uuid; role := assistant;
                 content := or_else (get data "answer")
                                    (VStr "(no answer returned)");
                 tools := Some tools |} in
            (setSending false
               (setMessages (fun m => (m ++ [assistantMsg])%list) st), w)
        | _ =>
            (* [.map] of a value that is not an array: TypeError *)
            (caught (Error (not_a_function w)) st, w)
        end
  end.

Definition onLogout (st : State) (w : World) : State * World :=
  (st, router_push "/" (AuthClient.clearToken w)).

(** The view: which controls are disabled, and what is shown. *)
Definition textarea_disabled (st : State) : bool :=
  negb (held (token st)) || sending st.

Definition button_disabled (st : State) : bool :=
  negb (held (token st)) || sending st
  || negb (str_truthy (trim (input st))).

(** The badges under a message. *)
Definition shown_tools (m : Message) : list Val :=
  match role m, tools m with
  | assistant, Some ts => ts
  | _, _ => []
  end.

(** A disabled control dispatches no event, so its handler does not
    run. *)
Definition click_send (uuid : string) (st : State) (w : World)
  : State * World :=
  if button_disabled st then (st, w) else sendMessage_call uuid st w.

Definition key_send (uuid : string) (st : State) (w : World)
  : State * World :=
  if textarea_disabled st then (st, w) else sendMessage_call uuid st w.

Definition change_input (v : string) (st : State) : State :=
  if textarea_disabled st then st else setInput v st.

End ChatUI.

(** ** The chat page over lib/api and lib/use-token *)

Module ChatPage.

Record Message : Type := {
  role : Role;
  content : Val;
  tools : option (list Val)
}.

(** [token] is the state of this component's [useToken()]. *)
Record State : Type := {
  token : option string;
  messages : list Message;
  input : string;
  loading : bool;
  error : Val
}.

Definition initial : State :=
  {| token := UseToken.initial; messages := [];
     input := "I forgot my login credentials. what do i do?";
     loading := false; error := VNull |}.

Definition setTokenState (t : option string) (st : State) : State :=
  {| token := t; messages := messages st; input := input st;
     loading := loading st; error := error st |}.

Definition setMessages (f : list Message -> list Message) (st : State)
  : State :=
  {| token := token st; messages := f (messages st); input := input st;
     loading := loading st; error := error st |}.

Definition setInput (v : string) (st : State) : State :=
  {| token := token st; messages := messages st; input := v;
     loading := loading st; error := error st |}.

Definition setLoading (b : bool) (st : State) : State :=
  {| token := token st; messages := messages st; input := input st;
     loading := b; error := error st |}.

Definition setError (e : Val) (st : State) : State :=
  {| token := token st; messages := messages st; input := input st;
     loading := loading st; error := e |}.

Definition mount (st : State) (w : World) : State :=
  setTokenState (UseToken.mount w (token st)) st.

(** [token || undefined] *)
Definition token_or_undefined (t : option string) : option string :=
  if held t then t else None.

(** [sendMessage] up to the [await]: [chatRequest] runs to its [fetch]. *)
Definition sendMessage_call (st : State) (w : World) : State * World :=
  if negb (str_truthy (trim (input st))) then (st, w)
  else
    let st1 := setError VNull st in
    let st2 := setLoading true st1 in
    let st3 :=
      setMessages
        (fun prev => (prev ++ [{| role := user; content := VStr (input st);
                                  tools := None |}])%list) st2 in
    (st3, Api.chatRequest_call (input st) (token_or_undefined (token st)) w).

(** The [catch] and [finally] blocks. *)
Definition caught (err : Val) (st : State) : State :=
  setLoading false
    (setError (or_else (get err "message")
                       (VStr "Something went wrong sending your message."))
              st).

(** The rest of the [try] block, given [tools]. *)
Definition answered (res : Val) (ts : option (list Val)) (st : State)
  : State :=
  let st1 :=
    setMessages
      (fun prev =>
         (prev ++ [{| role := assistant;
                      content := or_else (get res "answer")
                                         (VStr "(No answer provided.)");
                      tools := ts |}])%list) st in
  setLoading false (setInput "" st1).

(** [sendMessage] from the settlement of the request on. *)
Definition sendMessage_settle (out : FetchOutcome) (st : State) (w : World)
  : State * World :=
  match Api.chatRequest_settle out with
  | Rejected err => (caught err st, w)
  | Fulfilled res =>
      match get res "reasoning_steps" with
      | VUndef | VNull => (answered res None st, w)
      | VArr steps =>
          (answered res
             (Some (List.filter truthy
                      (List.map (fun s => get s "tool") steps))) st, w)
      | _ =>
          (* [.map] of a value that is not an array: TypeError *)
          (caught (Error (not_a_function w)) st, w)
      end
  end.

(** The view. *)
Definition textarea_disabled (st : State) : bool := loading st.

Definition button_disabled (st : State) : bool :=
  loading st || negb (str_truthy (trim (input st))).

(** The badges under a message. *)
Definition shown_tools (m : Message) : list Val :=
  match role m, tools m with
  | assistant, Some ts =>
      if (0 <? length ts)%nat then Array_from (Set_new ts) else []
  | _, _ => []
  end.

(** A disabled submit button submits nothing, so [onSubmit] does not
    run. *)
Definition submit_form (st : State) (w : World) : State * World :=
  if button_disabled st then (st, w) else sendMessage_call st w.

Definition change_input (v : string) (st : State) : State :=
  if textarea_disabled st then st else setInput v st.

End ChatPage.

(** ** Values handed to a storage write *)

(** [localStorage.setItem] writes the string of its argument. A string is
    written as it is; what the engine makes of any other value is [conv],
    [None] where the conversion throws. *)
Definition DOMString (conv : Val -> option string) (v : Val) : option string :=
  match v with
  | VStr s => Some s
  | _ => conv v
  end.

(** ** components/auth-form: the entry form over lib/auth-client *)

Module AuthForm.

Inductive Mode : Type := login | register.

Definition API_BASE : string := "http://localhost:8000".

Record State : Type := {
  mode : Mode;
  email : string;
  password : string;
  loading : bool;
  error : Val
}.

Definition initial : State :=
  {| mode := login; email := ""; password := ""; loading := false;
     error := VNull |}.

Definition setMode (m : Mode) (st : State) : State :=
  {| mode := m; email := email st; password := password st;
     loading := loading st; error := error st |}.

Definition setEmail (v : string) (st : State) : State :=
  {| mode := mode st; email := v; password := password st;
     loading := loading st; error := error st |}.

Definition setPassword (v : string) (st : State) : State :=
  {| mode := mode st; email := email st; password := v;
     loading := loading st; error := error st |}.

Definition setLoading (b : bool) (st : State) : State :=
  {| mode := mode st; email := email st; password := password st;
     loading := b; error := error st |}.

Definition setError (e : Val) (st : State) : State :=
  {| mode := mode st; email := email st; password := password st;
     loading := loading st; error := e |}.

Definition endpoint (m : Mode) : string :=
  match m with
  | login => API_BASE ++ "/login"
  | register => API_BASE ++ "/register"
  end.

(** [authRequest] up to [await fetch(...)]. *)
Definition authRequest_call (m : Mode) (email password : string) (w : World)
  : World :=
  fetch {| url := endpoint m;
           method := "POST";
           headers := {[ "Content-Type" := "application/json" ]};
           body := VObj (<[ "email" := VStr email ]>
                         {[ "password" := VStr password ]}) |} w.

(** [authRequest] from the settlement of the request on: it returns in
    every case. *)
Definition authRequest_settle (out : FetchOutcome) : Val :=
  match out with
  | Rejected e =>
      VObj {[ "error" := or_else (get e "message") (VStr "Network error") ]}
  | Fulfilled res =>
      let data :=
        match json res with
        | Fulfilled d => d
        | Rejected _ => VObj ∅
        end in
      if negb (ok res) then
        let message :=
          or_else (or_else (get data "detail") (get data "error"))
                  (VStr ("Request failed with status "
                         ++ num_to_string (status res))) in
        VObj {[ "error" := message ]}
      else data
  end.

(** [onSubmit] up to the [await]. *)
Definition onSubmit_call (st : State) (w : World) : State * World :=
  let st1 := setError VNull st in
  if negb (str_truthy (email st)) || negb (str_truthy (password st)) then
    (setError (VStr "Please provide both email and password.") st1, w)
  else
    (setLoading true st1,
     authRequest_call (mode st) (email st) (password st) w).

(** [setToken(result.access_token)] *)
Definition setToken_value (conv : Val -> option string) (v : Val) (w : World)
  : World :=
  match DOMString conv v with
  | Some s => AuthClient.setToken s w
  | None => w
  end.

(** [onSubmit] from the settlement of the request on. Reading [result.error]
    of [null] throws, and nothing after it runs. *)
Definition onSubmit_settle (conv : Val -> option string) (out : FetchOutcome)
           (st : State) (w : World) : State * World :=
  let result := authRequest_settle out in
  let st1 := setLoading false st in
  match result with
  | VUndef | VNull => (st1, w)
  | _ =>
      if truthy (get result "error") then
        (setError (get result "error") st1, w)
      else if truthy (get result "access_token") then
        let w1 := setToken_value conv (get result "access_token") w in
        (st1, router_push "/chat" w1)
      else
        (setError (VStr "No access token returned from server.") st1, w)
  end.

End AuthForm.

(** ** components/auth/login-form.tsx *)

(** A [setTimeout] that has not fired yet: the path its callback pushes,
    and the delay in milliseconds. *)
Record Timeout : Type := {
  pushes : string;
  delay : N
}.

(** The callback of a [Timeout] runs. *)
Definition fire (t : Timeout) (w : World) : World := router_push (pushes t) w.

Module LoginForm.

Record State : Type := {
  email : string;
  password : string;
  loading : bool;
  error : Val;
  success : Val
}.

Definition initial : State :=
  {| email := "alice@example.com"; password := "password123";
     loading := false; error := VNull; success := VNull |}.

Definition setEmail (v : string) (st : State) : State :=
  {| email := v; password := password st; loading := loading st;
     error := error st; success := success st |}.

Definition setPassword (v : string) (st : State) : State :=
  {| email := email st; password := v; loading := loading st;
     error := error st; success := success st |}.

Definition setLoading (b : bool) (st : State) : State :=
  {| email := email st; password := password st; loading := b;
     error := error st; success := success st |}.

Definition setError (e : Val) (st : State) : State :=
  {| email := email st; password := password st; loading := loading st;
     error := e; success := success st |}.

Definition setSuccess (e : Val) (st : State) : State :=
  {| email := email st; password := password st; loading := loading st;
     error := error st; success := e |}.

(** [onSubmit] up to the [await]: [loginRequest] runs to its [fetch]. *)
Definition onSubmit_call (st : State) (w : World) : State * World :=
  let st1 := setLoading true st in
  let st2 := setError VNull st1 in
  let st3 := setSuccess VNull st2 in
  (st3, Api.loginRequest_call (email st) (password st) w).

(** [setToken(data.access_token)] of [useToken], as far as the world sees
    it: the form never reads the hook's own state. *)
Definition setToken_value (conv : Val -> option string) (v : Val) (w : World)
  : World :=
  match DOMString conv v with
  | Some s => snd (UseToken.setToken s w UseToken.initial)
  | None => w
  end.

(** [onSubmit] from the settlement of the request on. *)
Definition onSubmit_settle (conv : Val -> option string) (out : FetchOutcome)
           (st : State) (w : World) : State * World * list Timeout :=
  match Api.loginRequest_settle out with
  | Fulfilled data =>
      let w1 := setToken_value conv (get data "access_token") w in
      let st1 := setSuccess (VStr "Logged in successfully.") st in
      (setLoading false st1, w1, [ {| pushes := "/chat"; delay := 500 |} ])
  | Rejected err =>
      (setLoading false
         (setError (or_else (get err "message") (VStr "Login failed.")) st),
       w, [])
  end.

End LoginForm.

(** ** The register form beside it *)

Module RegisterForm.

Record State : Type := {
  email : string;
  password : string;
  loading : bool;
  error : Val;
  success : Val
}.

Definition initial : State :=
  {| email := ""; password := ""; loading := false; error := VNull;
     success := VNull |}.

Definition setEmail (v : string) (st : State) : State :=
  {| email := v; password := password st; loading := loading st;
     error := error st; success := success st |}.

Definition setPassword (v : string) (st : State) : State :=
  {| email := email st; password := v; loading := loading st;
     error := error st; success := success st |}.

Definition setLoading (b : bool) (st : State) : State :=
  {| email := email st; password := password st; loading := b;
     error := error st; success := success st |}.

Definition setError (e : Val) (st : State) : State :=
  {| email := email st; password := password st; loading := loading st;
     error := e; success := success st |}.

Definition setSuccess (e : Val) (st : State) : State :=
  {| email := email st; password := password st; loading := loading st;
     error := error st; success := e |}.

(** [onSubmit] up to [await fetch(...)]. *)
Definition onSubmit_call (st : State) (w : World) : State * World :=
  let st1 := setLoading true st in
  let st2 := setError VNull st1 in
  let st3 := setSuccess VNull st2 in
  (st3,
   fetch {| url := Api.API_BASE w ++ "/register";
            method := "POST";
            headers := {[ "Content-Type" := "application/json" ]};
            body := VObj (<[ "email" := VStr (email st) ]>
                          {[ "password" := VStr (password st) ]}) |} w).

(** The [catch] and [finally] blocks. *)
Definition caught (err : Val) (st : State) : State :=
  setLoading false
    (setError (or_else (get err "message") (VStr "Registration failed.")) st).

(** [onSubmit] from the settlement of the request on. *)
Definition onSubmit_settle (out : FetchOutcome) (st : State) : State :=
  match out with
  | Rejected e => caught e st
  | Fulfilled res =>
      if negb (ok res) then
        let text := match text res with Some t => t | None => "" end in
        caught (Error ("Register failed (" ++ num_to_string (status res)
                       ++ "): "
                       ++ str_or text (str_or (statusText res)
                                              "Unknown error"))) st
      else
        setLoading false
          (setSuccess (VStr "Registration successful. You can now log in.")
                      st)
  end.

End RegisterForm.

(** ** components/navbar.tsx *)

Module Navbar.

(** The bar's state is the state of its own [useToken()]. *)
Definition mount (w : World) (token : option string) : option string :=
  UseToken.mount w token.

(** The Logout button is rendered when a token is held. *)
Definition logout_shown (token : option string) : bool := held token.

(** A click on Logout; there is nothing to click when it is not shown. *)
Definition click_logout (w : World) (token : option string)
  : option string * World :=
  if logout_shown token then UseToken.clearToken w token else (token, w).

End Navbar.

(** ** The life of a chat-ui panel *)

(** What can happen to a mounted panel. Every handler runs against the
    state of the latest render. A request may settle at any time; the
    panel does not cancel one. *)
Inductive PanelEvent : Type :=
| Mounted
| Typed (v : string)
| ClickedSend (uuid : string)
| PressedCmdEnter (uuid : string)
| RequestSettled (uuid : string) (out : FetchOutcome)
| ClickedLogout.

Definition panel_step (c : ChatUI.State * World) (e : PanelEvent)
  : ChatUI.State * World :=
  match e with
  | Mounted => ChatUI.mount (fst c) (snd c)
  | Typed v => (ChatUI.change_input v (fst c), snd c)
  | ClickedSend uuid => ChatUI.click_send uuid (fst c) (snd c)
  | PressedCmdEnter uuid => ChatUI.key_send uuid (fst c) (snd c)
  | RequestSettled uuid out =>
      ChatUI.sendMessage_settle uuid out (fst c) (snd c)
  | ClickedLogout => ChatUI.onLogout (fst c) (snd c)
  end.

Definition panel_run (w : World) (es : list PanelEvent)
  : ChatUI.State * World :=
  fold_left panel_step es (ChatUI.initial, w).

(** ** The life of a chat page *)

Inductive PageEvent : Type :=
| PageMounted
| PageTyped (v : string)
| PageSubmitted
| PageRequestSettled (out : FetchOutcome).

Definition page_step (c : ChatPage.State * World) (e : PageEvent)
  : ChatPage.State * World :=
  match e with
  | PageMounted => (ChatPage.mount (fst c) (snd c), snd c)
  | PageTyped v => (ChatPage.change_input v (fst c), snd c)
  | PageSubmitted => ChatPage.submit_form (fst c) (snd c)
  | PageRequestSettled out => ChatPage.sendMessage_settle out (fst c) (snd c)
  end.

(** ** Requests in flight *)

(** The requests a step has issued. *)
Definition issued (w w' : World) : nat :=
  length (fetched w') - length (fetched w).

(** A component together with the number of its requests that have not
    settled yet. A settlement needs a pending request; every other event
    adds the requests it issues. *)
Definition panel_tracked_step (c : ChatUI.State * World * nat)
           (e : PanelEvent) : ChatUI.State * World * nat :=
  match e, snd c with
  | RequestSettled _ _, O => c
  | RequestSettled _ _, S n => (panel_step (fst c) e, n)
  | _, n =>
      (panel_step (fst c) e,
       n + issued (snd (fst c)) (snd (panel_step (fst c) e)))
  end.

Definition panel_tracked_run (w : World) (es : list PanelEvent)
  : ChatUI.State * World * nat :=
  fold_left panel_tracked_step es (ChatUI.initial, w, O).

Definition page_tracked_step (c : ChatPage.State * World * nat)
           (e : PageEvent) : ChatPage.State * World * nat :=
  match e, snd c with
  | PageRequestSettled _, O => c
  | PageRequestSettled _, S n => (page_step (fst c) e, n)
  | _, n =>
      (page_step (fst c) e,
       n + issued (snd (fst c)) (snd (page_step (fst c) e)))
  end.

Definition page_tracked_run (w : World) (es : list PageEvent)
  : ChatPage.State * World * nat :=
  fold_left page_tracked_step es (ChatPage.initial, w, O).

(** The in-flight flag as a number of requests. *)
Definition flag (b : bool) : nat := if b then 1 else 0.

(** ** Vocabulary of the statements *)

(** A send fails: a transport error, or a status outside 200..299. *)
Definition failed (out : FetchOutcome) : bool :=
  match out with
  | Rejected _ => true
  | Fulfilled res => negb (ok res)
  end.

(** A world whose local storage takes reads and writes. *)
Definition storage_usable (w : World) : bool :=
  has_window w
  && negb (access_denied (localStorage w))
  && negb (quota_exceeded (localStorage w)).

(** [y] is another name than [x]. *)
Definition differs (x y : string) : bool := negb (String.eqb x y).

(** Keep the first occurrence of every name, in order: a name stays, and
    its later occurrences go. *)
Fixpoint first_seen (l : list string) : list string :=
  match l with
  | [] => []
  | x :: r => x :: List.filter (differs x) (first_seen r)
  end.

(** A reasoning step that reports the tool [n]. *)
Definition step_with_tool (n : string) : Val := VObj {[ "tool" := VStr n ]}.

(** A body that conforms to the declared [ChatResponse] type in its
    [reasoning_steps] field: the field is absent or an array. *)
Definition steps_well_typed (data : Val) : bool :=
  match get data "reasoning_steps" with
  | VUndef | VArr _ => true
  | _ => false
  end.

(** The tool names a list of reasoning steps reports: the non-empty string
    [tool] fields, in order. *)
Fixpoint tool_names (steps : list Val) : list string :=
  match steps with
  | [] => []
  | s :: r =>
      match get s "tool" with
      | VStr n => if str_truthy n then n :: tool_names r else tool_names r
      | _ => tool_names r
      end
  end.

(** A step as the response type declares it: [tool] is absent or a
    string. *)
Definition tool_typed (s : Val) : bool :=
  match get s "tool" with
  | VUndef | VStr _ => true
  | _ => false
  end.

(** [y] is none of the names in [acc]. *)
Definition unseen (acc : list string) (y : string) : bool :=
  negb (existsb (String.eqb y) acc).

(** The message of a failed request: the body text, else the status text,
    else a fixed text. *)
Definition failure_text (res : Response) : string :=
  str_or (default "" (text res)) (str_or (statusText res) "Unknown error").

(** While a send is in flight the text area is empty. *)
Definition input_cleared (st : ChatUI.State) : Prop :=
  ChatUI.sending st = true -> ChatUI.input st = "".

(** ** Concrete worlds, states and responses *)

Definition empty_storage : Storage :=
  {| items := ∅; access_denied := false; quota_exceeded := false |}.

Definition browser : World :=
  {| has_window := true; env_api_base := None;
     not_a_function := "data.reasoning_steps.map is not a function";
     localStorage := empty_storage; pushed := []; fetched := [] |}.

(** The chat-ui panel of a logged-in user who has typed a question. *)
Definition typed_panel : ChatUI.State :=
  ChatUI.setInput " How do I reset my password? "
    (fst (ChatUI.mount ChatUI.initial (AuthClient.setToken "tok123" browser))).

Definition logged_in_browser : World := AuthClient.setToken "tok123" browser.

(** The chat page of a guest who has typed a question. *)
Definition typed_page : ChatPage.State :=
  ChatPage.setInput "How do I reset my password?"
    (ChatPage.mount ChatPage.initial browser).

(** The panel and the page after the question has been sent. *)
Definition sent_panel : ChatUI.State * World :=
  ChatUI.sendMessage_call "id-1" typed_panel logged_in_browser.

Definition sent_page : ChatPage.State * World :=
  ChatPage.sendMessage_call typed_page browser.

Definition server_error : Response :=
  {| status := 500; statusText := "Internal Server Error";
     text := Some "boom"; json := Rejected (Error "Unexpected token b") |}.

Definition answer_body : Val :=
  VObj (<[ "answer" := VStr "Reset via settings." ]>
        {[ "reasoning_steps" := VArr [step_with_tool "search_documents"] ]}).

Definition answer_response : Response :=
  {| status := 200; statusText := "OK"; text := None;
     json := Fulfilled answer_body |}.

Definition unauthorized : Response :=
  {| status := 401; statusText := "Unauthorized";
     text := Some "Could not validate credentials";
     json := Fulfilled
               (VObj {[ "detail" := VStr "Could not validate credentials" ]}) |}.

(** The browser of a user who logged in through the login form, which
    stores the token with [useToken]. *)
Definition form_browser : World :=
  snd (UseToken.setToken "tok123" browser UseToken.initial).

Definition sent_member_page : ChatPage.State * World :=
  ChatPage.sendMessage_call
    (ChatPage.setInput "How do I reset my password?"
       (ChatPage.mount ChatPage.initial form_browser))
    form_browser.

Definition no_answer_response : Response :=
  {| status := 200; statusText := "OK"; text := None;
     json := Fulfilled
               (VObj {[ "reasoning_steps" :=
                          VArr [step_with_tool "search_documents"] ]}) |}.

(** A 200 response that parses as JSON and has no [answer], but whose
    [reasoning_steps] is a string. *)
Definition untyped_steps_response : Response :=
  {| status := 200; statusText := "OK"; text := None;
     json := Fulfilled (VObj {[ "reasoning_steps" := VStr "none" ]}) |}.

Definition html_response : Response :=
  {| status := 200; statusText := "OK"; text := Some "<html></html>";
     json := Rejected (Error "Unexpected token <") |}.

(** A browser whose storage refuses writes. *)
Definition full_browser : World :=
  with_storage
    {| items := ∅; access_denied := false; quota_exceeded := true |} browser.

Definition repeated_steps : list Val :=
  List.map step_with_tool ["a"; "b"; "a"; "c"].

Definition repeated_tools_response : Response :=
  {| status := 200; statusText := "OK"; text := None;
     json := Fulfilled
               (VObj (<[ "answer" := VStr "Done." ]>
                      {[ "reasoning_steps" := VArr repeated_steps ]})) |}.

Definition login_ok : Response :=
  {| status := 200; statusText := "OK"; text := None;
     json := Fulfilled (VObj (<[ "access_token" := VStr "tok123" ]>
                              {[ "token_type" := VStr "bearer" ]})) |}.

Definition login_without_token : Response :=
  {| status := 200; statusText := "OK"; text := None;
     json := Fulfilled (VObj {[ "token_type" := VStr "bearer" ]}) |}.

Definition not_found : Response :=
  {| status := 404; statusText := "Not Found"; text := Some "{}";
     json := Fulfilled (VObj ∅) |}.

(** ** Vocabulary of the further statements *)

(** The user messages of a log. *)
Definition by_user (l : list ChatUI.Message) : list ChatUI.Message :=
  List.filter
    (fun m => match ChatUI.role m with user => true | assistant => false end)
    l.

(** A chat request that carries a bearer token. *)
Definition authorized (r : Request) : Prop :=
  exists t, str_truthy t = true
            /\ headers r !! "Authorization" = Some ("Bearer " ++ t).

(** The requests issued since the panel was created. *)
Definition accounted (w0 : World) (c : ChatUI.State * World) : Prop :=
  exists new,
    fetched (snd c) = (fetched w0 ++ new)%list
    /\ length new = length (by_user (ChatUI.messages (fst c)))
    /\ Forall authorized new.

(** The body as the entry form takes it: an empty object when it is not
    JSON. *)
Definition body_or_empty (res : Response) : Val :=
  match json res with
  | Fulfilled d => d
  | Rejected _ => VObj ∅
  end.

(** An engine that refuses to make a string of anything. *)
Definition no_conversion (v : Val) : option string := None.

(** A browser whose storage cannot be reached, and one without a window. *)
Definition locked_browser : World :=
  with_storage
    {| items := ∅; access_denied := true; quota_exceeded := false |} browser.

Definition server_side : World :=
  {| has_window := false; env_api_base := None;
     not_a_function := not_a_function browser;
     localStorage := empty_storage; pushed := []; fetched := [] |}.

(** The entry form with both fields filled in. *)
Definition filled_form : AuthForm.State :=
  AuthForm.setPassword "password123"
    (AuthForm.setEmail "alice@example.com" AuthForm.initial).

Definition registered : Response :=
  {| status := 201; statusText := "Created"; text := None;
     json := Fulfilled (VObj {[ "message" := VStr "User created" ]}) |}.

Definition null_body : Response :=
  {| status := 200; statusText := "OK"; text := Some "null";
     json := Fulfilled VNull |}.

(** ** Basic facts *)

Lemma truthy_or_else_r (a b : Val) :
  truthy b = true -> truthy (or_else a b) = true.
Proof.
  intros Hb. unfold or_else. destruct (truthy a) eqn:Ha; assumption.
Qed.

Lemma ok_not_401 (res : Response) :
  ok res = true -> (status res =? 401)%N = false.
Proof.
  unfold ok. intros H. apply andb_prop in H as [_ H].
  apply N.leb_le in H. apply N.eqb_neq. lia.
Qed.

Lemma status_401_not_ok (res : Response) :
  status res = 401%N -> ok res = false.
Proof. unfold ok. intros ->. reflexivity. Qed.

(** What the continuation of [ChatUI.sendMessage] can do to the log:
    nothing, or one assistant message at its end. *)
Lemma ChatUI_settle_log (uuid : string) (out : FetchOutcome)
      (st : ChatUI.State) (w : World) :
  let st' := fst (ChatUI.sendMessage_settle uuid out st w) in
  ChatUI.sending st' = false
  /\ (ChatUI.messages st' = ChatUI.messages st
      \/ exists a, ChatUI.role a = assistant
                   /\ ChatUI.messages st' = (ChatUI.messages st ++ [a])%list).
Proof.
  unfold ChatUI.sendMessage_settle.
  destruct out as [res|e]; simpl.
  - destruct (status res =? 401)%N; [simpl; auto|].
    destruct (negb (ok res)); [simpl; auto|].
    destruct (or_else _ _); simpl; auto.
    split; [reflexivity|]. right. eexists. split; [|reflexivity]. reflexivity.
  - auto.
Qed.

Lemma ChatPage_settle_log (out : FetchOutcome) (st : ChatPage.State)
      (w : World) :
  let st' := fst (ChatPage.sendMessage_settle out st w) in
  ChatPage.loading st' = false
  /\ (ChatPage.messages st' = ChatPage.messages st
      \/ exists a, ChatPage.role a = assistant
                   /\ ChatPage.messages st' = (ChatPage.messages st ++ [a])%list).
Proof.
  unfold ChatPage.sendMessage_settle.
  destruct (Api.chatRequest_settle out) as [res|e]; simpl; [|auto].
  destruct (get res "reasoning_steps"); simpl; auto;
    (split; [reflexivity|]; right; eexists; split; [|reflexivity]; reflexivity).
Qed.

(** A failed send reaches the [catch] block of [ChatPage.sendMessage]. *)
Lemma chatRequest_settle_failed (out : FetchOutcome) :
  failed out = true -> exists e, Api.chatRequest_settle out = Rejected e.
Proof.
  destruct out as [res|e]; simpl; intros H.
  - rewrite H. eauto.
  - eauto.
Qed.

(** ** Submitting *)

Lemma ChatUI_submit_sends (uuid : string) (st : ChatUI.State) (w : World) :
  str_truthy (trim (ChatUI.input st)) = true ->
  held (ChatUI.token st) = true ->
  exists m r,
    ChatUI.role m = user
    /\ ChatUI.content m = VStr (trim (ChatUI.input st))
    /\ ChatUI.messages (fst (ChatUI.sendMessage_call uuid st w))
       = (ChatUI.messages st ++ [m])%list
    /\ ChatUI.sending (fst (ChatUI.sendMessage_call uuid st w)) = true
    /\ ChatUI.error (fst (ChatUI.sendMessage_call uuid st w)) = VNull
    /\ fetched (snd (ChatUI.sendMessage_call uuid st w))
       = (fetched w ++ [r])%list.
Proof.
  intros Hin Htok. unfold ChatUI.sendMessage_call.
  rewrite Hin, Htok. simpl.
  eexists. eexists. repeat split; reflexivity.
Qed.

Lemma ChatUI_submit_rejects (uuid : string) (st : ChatUI.State) (w : World) :
  str_truthy (trim (ChatUI.input st)) = false ->
  ChatUI.sendMessage_call uuid st w = (st, w).
Proof.
  intros Hin. unfold ChatUI.sendMessage_call. now rewrite Hin.
Qed.

Lemma ChatPage_submit_sends (st : ChatPage.State) (w : World) :
  str_truthy (trim (ChatPage.input st)) = true ->
  exists m r,
    ChatPage.role m = user
    /\ ChatPage.content m = VStr (ChatPage.input st)
    /\ ChatPage.messages (fst (ChatPage.sendMessage_call st w))
       = (ChatPage.messages st ++ [m])%list
    /\ ChatPage.loading (fst (ChatPage.sendMessage_call st w)) = true
    /\ ChatPage.error (fst (ChatPage.sendMessage_call st w)) = VNull
    /\ fetched (snd (ChatPage.sendMessage_call st w))
       = (fetched w ++ [r])%list.
Proof.
  intros Hin. unfold ChatPage.sendMessage_call.
  rewrite Hin. simpl.
  eexists. eexists. repeat split; reflexivity.
Qed.

Lemma ChatPage_submit_rejects (st : ChatPage.State) (w : World) :
  str_truthy (trim (ChatPage.input st)) = false ->
  ChatPage.sendMessage_call st w = (st, w).
Proof.
  intros Hin. unfold ChatPage.sendMessage_call. now rewrite Hin.
Qed.

(** C4. For every input whose trimmed form is non-empty (and, in chat-ui,
    with a token held), [sendMessage] appends exactly one user message to the
    log and issues exactly one request before the request settles; whatever
    the outcome of the request, the log afterwards is the old log, that user
    message, and at most one assistant message. For every input whose trimmed
    form is empty, [sendMessage] changes neither the state nor the world: the
    log is unchanged and no request is issued. Both controllers. *)
Theorem C4_submit_appends_one_user_message :
  (forall uuid st w,
      str_truthy (trim (ChatUI.input st)) = true ->
      held (ChatUI.token st) = true ->
      exists m r,
        ChatUI.role m = user
        /\ ChatUI.messages (fst (ChatUI.sendMessage_call uuid st w))
           = (ChatUI.messages st ++ [m])%list
        /\ fetched (snd (ChatUI.sendMessage_call uuid st w))
           = (fetched w ++ [r])%list
        /\ forall uuid' out, exists rest,
            ChatUI.messages
              (fst (ChatUI.sendMessage_settle uuid' out
                      (fst (ChatUI.sendMessage_call uuid st w))
                      (snd (ChatUI.sendMessage_call uuid st w))))
            = (ChatUI.messages st ++ [m] ++ rest)%list
            /\ (length rest <= 1)%nat
            /\ Forall (fun a => ChatUI.role a = assistant) rest)
  /\ (forall uuid st w,
        str_truthy (trim (ChatUI.input st)) = false ->
        ChatUI.sendMessage_call uuid st w = (st, w))
  /\ (forall st w,
        str_truthy (trim (ChatPage.input st)) = true ->
        exists m r,
          ChatPage.role m = user
          /\ ChatPage.messages (fst (ChatPage.sendMessage_call st w))
             = (ChatPage.messages st ++ [m])%list
          /\ fetched (snd (ChatPage.sendMessage_call st w))
             = (fetched w ++ [r])%list
          /\ forall out, exists rest,
              ChatPage.messages
                (fst (ChatPage.sendMessage_settle out
                        (fst (ChatPage.sendMessage_call st w))
                        (snd (ChatPage.sendMessage_call st w))))
              = (ChatPage.messages st ++ [m] ++ rest)%list
              /\ (length rest <= 1)%nat
              /\ Forall (fun a => ChatPage.role a = assistant) rest)
  /\ (forall st w,
        str_truthy (trim (ChatPage.input st)) = false ->
        ChatPage.sendMessage_call st w = (st, w)).
Proof.
  split; [|split; [|split]].
  - intros uuid st w Hin Htok.
    destruct (ChatUI_submit_sends uuid st w Hin Htok)
      as (m & r & Hrole & _ & Hlog & _ & _ & Hreq).
    exists m, r. repeat split; [assumption..|].
    intros uuid' out.
    destruct (ChatUI_settle_log uuid' out
                (fst (ChatUI.sendMessage_call uuid st w))
                (snd (ChatUI.sendMessage_call uuid st w)))
      as [_ [Hsame | (a & Ha & Happ)]].
    + exists []. rewrite Hsame, Hlog. repeat split; auto.
    + exists [a]. rewrite Happ, Hlog, <- app_assoc. repeat split; auto.
  - apply ChatUI_submit_rejects.
  - intros st w Hin.
    destruct (ChatPage_submit_sends st w Hin)
      as (m & r & Hrole & _ & Hlog & _ & _ & Hreq).
    exists m, r. repeat split; [assumption..|].
    intros out.
    destruct (ChatPage_settle_log out
                (fst (ChatPage.sendMessage_call st w))
                (snd (ChatPage.sendMessage_call st w)))
      as [_ [Hsame | (a & Ha & Happ)]].
    + exists []. rewrite Hsame, Hlog. repeat split; auto.
    + exists [a]. rewrite Happ, Hlog, <- app_assoc. repeat split; auto.
  - apply ChatPage_submit_rejects.
Qed.

Lemma C4_submit_appends_one_user_message_witness :
  (str_truthy (trim (ChatUI.input typed_panel)) = true
   /\ held (ChatUI.token typed_panel) = true
   /\ exists m r,
       ChatUI.role m = user
       /\ ChatUI.messages
            (fst (ChatUI.sendMessage_call "id-1" typed_panel logged_in_browser))
          = (ChatUI.messages typed_panel ++ [m])%list
       /\ fetched
            (snd (ChatUI.sendMessage_call "id-1" typed_panel logged_in_browser))
          = (fetched logged_in_browser ++ [r])%list
       /\ forall uuid' out, exists rest,
           ChatUI.messages
             (fst (ChatUI.sendMessage_settle uuid' out
                     (fst (ChatUI.sendMessage_call "id-1" typed_panel
                             logged_in_browser))
                     (snd (ChatUI.sendMessage_call "id-1" typed_panel
                             logged_in_browser))))
           = (ChatUI.messages typed_panel ++ [m] ++ rest)%list
           /\ (length rest <= 1)%nat
           /\ Forall (fun a => ChatUI.role a = assistant) rest)
  /\ (str_truthy (trim (ChatUI.input (ChatUI.setInput "  " typed_panel)))
      = false
      /\ ChatUI.sendMessage_call "id-1" (ChatUI.setInput "  " typed_panel)
           logged_in_browser
         = (ChatUI.setInput "  " typed_panel, logged_in_browser))
  /\ (str_truthy (trim (ChatPage.input typed_page)) = true
      /\ exists m r,
          ChatPage.role m = user
          /\ ChatPage.messages (fst (ChatPage.sendMessage_call typed_page browser))
             = (ChatPage.messages typed_page ++ [m])%list
          /\ fetched (snd (ChatPage.sendMessage_call typed_page browser))
             = (fetched browser ++ [r])%list
          /\ forall out, exists rest,
              ChatPage.messages
                (fst (ChatPage.sendMessage_settle out
                        (fst (ChatPage.sendMessage_call typed_page browser))
                        (snd (ChatPage.sendMessage_call typed_page browser))))
              = (ChatPage.messages typed_page ++ [m] ++ rest)%list
              /\ (length rest <= 1)%nat
              /\ Forall (fun a => ChatPage.role a = assistant) rest)
  /\ (str_truthy (trim (ChatPage.input (ChatPage.setInput "" typed_page)))
      = false
      /\ ChatPage.sendMessage_call (ChatPage.setInput "" typed_page) browser
         = (ChatPage.setInput "" typed_page, browser)).
Proof.
  destruct C4_submit_appends_one_user_message as (H1 & H2 & H3 & H4).
  split; [|split; [|split]].
  - split; [reflexivity|]. split; [reflexivity|].
    apply (H1 "id-1" typed_panel logged_in_browser); reflexivity.
  - split; [reflexivity|].
    apply (H2 "id-1" (ChatUI.setInput "  " typed_panel) logged_in_browser).
    reflexivity.
  - split; [reflexivity|]. apply (H3 typed_page browser). reflexivity.
  - split; [reflexivity|].
    apply (H4 (ChatPage.setInput "" typed_page) browser). reflexivity.
Defined.

(** ** Failed and successful sends *)

Lemma ChatUI_settle_failed (uuid : string) (out : FetchOutcome)
      (st : ChatUI.State) (w : World) :
  failed out = true ->
  ChatUI.messages (fst (ChatUI.sendMessage_settle uuid out st w))
  = ChatUI.messages st
  /\ truthy (ChatUI.error (fst (ChatUI.sendMessage_settle uuid out st w)))
     = true.
Proof.
  intros Hf. unfold ChatUI.sendMessage_settle.
  destruct out as [res|e]; simpl in *.
  - destruct (status res =? 401)%N; [simpl; auto|].
    rewrite Hf. simpl. split; [reflexivity|].
    now apply truthy_or_else_r.
  - split; [reflexivity|]. now apply truthy_or_else_r.
Qed.

Lemma ChatPage_settle_failed (out : FetchOutcome) (st : ChatPage.State)
      (w : World) :
  failed out = true ->
  ChatPage.messages (fst (ChatPage.sendMessage_settle out st w))
  = ChatPage.messages st
  /\ truthy (ChatPage.error (fst (ChatPage.sendMessage_settle out st w)))
     = true.
Proof.
  intros Hf. unfold ChatPage.sendMessage_settle.
  destruct (chatRequest_settle_failed out Hf) as [e ->]. simpl.
  split; [reflexivity|]. now apply truthy_or_else_r.
Qed.

(** C5. For every chat send that fails (a transport error or a status
    outside 200..299), the continuation of [sendMessage] leaves the log as it
    was, so no assistant message is appended and the user message appended
    before the request is still there, and it records a truthy error, which
    the view shows. For every send that does not fail, the continuation
    appends at most one message, an assistant message. Both controllers. *)
Theorem C5_failed_send_keeps_log_and_records_error :
  (forall uuid out st w,
      failed out = true ->
      ChatUI.messages (fst (ChatUI.sendMessage_settle uuid out st w))
      = ChatUI.messages st
      /\ truthy (ChatUI.error (fst (ChatUI.sendMessage_settle uuid out st w)))
         = true)
  /\ (forall uuid out st w,
        failed out = false ->
        exists rest,
          ChatUI.messages (fst (ChatUI.sendMessage_settle uuid out st w))
          = (ChatUI.messages st ++ rest)%list
          /\ (length rest <= 1)%nat
          /\ Forall (fun a => ChatUI.role a = assistant) rest)
  /\ (forall out st w,
        failed out = true ->
        ChatPage.messages (fst (ChatPage.sendMessage_settle out st w))
        = ChatPage.messages st
        /\ truthy (ChatPage.error (fst (ChatPage.sendMessage_settle out st w)))
           = true)
  /\ (forall out st w,
        failed out = false ->
        exists rest,
          ChatPage.messages (fst (ChatPage.sendMessage_settle out st w))
          = (ChatPage.messages st ++ rest)%list
          /\ (length rest <= 1)%nat
          /\ Forall (fun a => ChatPage.role a = assistant) rest).
Proof.
  split; [|split; [|split]].
  - apply ChatUI_settle_failed.
  - intros uuid out st w _.
    destruct (ChatUI_settle_log uuid out st w) as [_ [Hsame | (a & Ha & Happ)]].
    + exists []. rewrite Hsame, app_nil_r. repeat split; auto.
    + exists [a]. rewrite Happ. repeat split; auto.
  - apply ChatPage_settle_failed.
  - intros out st w _.
    destruct (ChatPage_settle_log out st w) as [_ [Hsame | (a & Ha & Happ)]].
    + exists []. rewrite Hsame, app_nil_r. repeat split; auto.
    + exists [a]. rewrite Happ. repeat split; auto.
Qed.

Lemma C5_failed_send_keeps_log_and_records_error_witness :
  (failed (Fulfilled server_error) = true
   /\ ChatUI.messages
        (fst (ChatUI.sendMessage_settle "id-2" (Fulfilled server_error)
                (fst sent_panel) (snd sent_panel)))
      = ChatUI.messages (fst sent_panel)
   /\ truthy
        (ChatUI.error
           (fst (ChatUI.sendMessage_settle "id-2" (Fulfilled server_error)
                   (fst sent_panel) (snd sent_panel))))
      = true)
  /\ (failed (Fulfilled answer_response) = false
      /\ exists rest,
          ChatUI.messages
            (fst (ChatUI.sendMessage_settle "id-2" (Fulfilled answer_response)
                    (fst sent_panel) (snd sent_panel)))
          = (ChatUI.messages (fst sent_panel) ++ rest)%list
          /\ (length rest <= 1)%nat
          /\ Forall (fun a => ChatUI.role a = assistant) rest)
  /\ (failed (Rejected (Error "Failed to fetch")) = true
      /\ ChatPage.messages
           (fst (ChatPage.sendMessage_settle
                   (Rejected (Error "Failed to fetch"))
                   (fst sent_page) (snd sent_page)))
         = ChatPage.messages (fst sent_page)
      /\ truthy
           (ChatPage.error
              (fst (ChatPage.sendMessage_settle
                      (Rejected (Error "Failed to fetch"))
                      (fst sent_page) (snd sent_page))))
         = true)
  /\ (failed (Fulfilled answer_response) = false
      /\ exists rest,
          ChatPage.messages
            (fst (ChatPage.sendMessage_settle (Fulfilled answer_response)
                    (fst sent_page) (snd sent_page)))
          = (ChatPage.messages (fst sent_page) ++ rest)%list
          /\ (length rest <= 1)%nat
          /\ Forall (fun a => ChatPage.role a = assistant) rest).
Proof.
  destruct C5_failed_send_keeps_log_and_records_error as (H1 & H2 & H3 & H4).
  split; [|split; [|split]].
  - split; [reflexivity|].
    apply (H1 "id-2" (Fulfilled server_error)). reflexivity.
  - split; [reflexivity|].
    apply (H2 "id-2" (Fulfilled answer_response)). reflexivity.
  - split; [reflexivity|].
    apply (H3 (Rejected (Error "Failed to fetch"))). reflexivity.
  - split; [reflexivity|].
    apply (H4 (Fulfilled answer_response)). reflexivity.
Defined.

(** ** Status 401 *)

Lemma getToken_clearToken (w : World) :
  AuthClient.getToken (AuthClient.clearToken w) = None.
Proof.
  unfold AuthClient.clearToken, AuthClient.getToken, localStorage_removeItem,
    localStorage_getItem, removeItem, getItem.
  destruct (has_window w) eqn:Hw; simpl; [|now rewrite Hw].
  destruct (access_denied (localStorage w)) eqn:Hd; simpl; rewrite Hw; simpl.
  - now rewrite Hd.
  - apply lookup_delete_eq.
Qed.

Lemma items_clearToken (w : World) :
  items (localStorage (AuthClient.clearToken w)) !! AuthClient.TOKEN_KEY
  = if has_window w && negb (access_denied (localStorage w))
    then None
    else items (localStorage w) !! AuthClient.TOKEN_KEY.
Proof.
  unfold AuthClient.clearToken, localStorage_removeItem, removeItem.
  destruct (has_window w); simpl; [|reflexivity].
  destruct (access_denied (localStorage w)); simpl; [reflexivity|].
  apply lookup_delete_eq.
Qed.

Lemma pushed_clearToken (w : World) :
  pushed (AuthClient.clearToken w) = pushed w.
Proof.
  unfold AuthClient.clearToken, localStorage_removeItem.
  destruct (has_window w); simpl; [|reflexivity].
  destruct (removeItem _ _); reflexivity.
Qed.

(** C2, as the code has it. For every chat submit whose response has status
    401: in chat-ui the continuation of [sendMessage] clears the stored token
    (the entry under the auth-client key is removed wherever the storage can
    be reached, and a later [getToken] gives nothing), pushes the entry view
    ["/"], appends no message and records an error; the chat page appends no
    message and records an error, and touches neither the storage nor the
    router. *)
Theorem C2_unauthorized_chat_ui_clears_token_and_redirects
        (uuid : string) (res : Response)
        (st : ChatUI.State) (sp : ChatPage.State) (w : World) :
  status res = 401%N ->
  let r := ChatUI.sendMessage_settle uuid (Fulfilled res) st w in
  let q := ChatPage.sendMessage_settle (Fulfilled res) sp w in
  AuthClient.getToken (snd r) = None
  /\ items (localStorage (snd r)) !! AuthClient.TOKEN_KEY
     = (if has_window w && negb (access_denied (localStorage w))
        then None
        else items (localStorage w) !! AuthClient.TOKEN_KEY)
  /\ pushed (snd r) = (pushed w ++ ["/"])%list
  /\ ChatUI.messages (fst r) = ChatUI.messages st
  /\ truthy (ChatUI.error (fst r)) = true
  /\ ChatPage.messages (fst q) = ChatPage.messages sp
  /\ truthy (ChatPage.error (fst q)) = true
  /\ snd q = w.
Proof.
  intros H401 r q. subst r q.
  assert (Hfail : failed (Fulfilled res) = true).
  { simpl. now rewrite (status_401_not_ok res H401). }
  destruct (ChatPage_settle_failed (Fulfilled res) sp w Hfail) as [Hlog Herr].
  unfold ChatUI.sendMessage_settle. rewrite H401. simpl.
  split; [apply getToken_clearToken|].
  split; [apply items_clearToken|].
  split; [now rewrite pushed_clearToken|].
  split; [reflexivity|]. split; [reflexivity|].
  split; [exact Hlog|]. split; [exact Herr|].
  unfold ChatPage.sendMessage_settle.
  destruct (Api.chatRequest_settle (Fulfilled res)) as [d|e]; [|reflexivity].
  destruct (get d "reasoning_steps"); reflexivity.
Qed.

Lemma C2_unauthorized_chat_ui_clears_token_and_redirects_witness :
  status unauthorized = 401%N
  /\ AuthClient.getToken logged_in_browser = Some "tok123"
  /\ AuthClient.getToken
       (snd (ChatUI.sendMessage_settle "id-2" (Fulfilled unauthorized)
               (fst sent_panel) (snd sent_panel))) = None
  /\ pushed
       (snd (ChatUI.sendMessage_settle "id-2" (Fulfilled unauthorized)
               (fst sent_panel) (snd sent_panel))) = ["/"]
  /\ ChatUI.messages
       (fst (ChatUI.sendMessage_settle "id-2" (Fulfilled unauthorized)
               (fst sent_panel) (snd sent_panel)))
     = ChatUI.messages (fst sent_panel).
Proof.
  pose proof (C2_unauthorized_chat_ui_clears_token_and_redirects
                "id-2" unauthorized (fst sent_panel) (fst sent_page)
                (snd sent_panel) eq_refl) as H.
  cbv zeta in H. destruct H as (H1 & _ & H3 & H4 & _).
  split; [reflexivity|]. split; [reflexivity|].
  split; [exact H1|]. split; [exact H3|exact H4].
Defined.

(** On the chat page a 401 leaves the token where it was, in the component
    and in the storage, and the router is not called. *)
Lemma C2_chat_page_keeps_token_on_401 :
  status unauthorized = 401%N
  /\ ChatPage.token (fst sent_member_page) = Some "tok123"
  /\ ChatPage.token
       (fst (ChatPage.sendMessage_settle (Fulfilled unauthorized)
               (fst sent_member_page) (snd sent_member_page)))
     = Some "tok123"
  /\ UseToken.read
       (snd (ChatPage.sendMessage_settle (Fulfilled unauthorized)
               (fst sent_member_page) (snd sent_member_page)))
     = Some "tok123"
  /\ pushed
       (snd (ChatPage.sendMessage_settle (Fulfilled unauthorized)
               (fst sent_member_page) (snd sent_member_page)))
     = [].
Proof. repeat split; reflexivity. Qed.

(** ** Successful responses without an answer *)

(** C8, as the code has it. For every chat response with a status in
    200..299 whose body parses as JSON, has no [answer] field and has a
    [reasoning_steps] field that is absent or an array (as the declared
    response type says), the continuation of [sendMessage] appends one
    assistant message whose content is the controller's placeholder, leaves
    the error state as [sendMessage] reset it, and does nothing else to the
    world. Both controllers, each with its own placeholder. *)
Theorem C8_missing_answer_gets_placeholder
        (uuid : string) (res : Response) (data : Val)
        (st : ChatUI.State) (sp : ChatPage.State) (w : World) :
  ok res = true ->
  json res = Fulfilled data ->
  get data "answer" = VUndef ->
  steps_well_typed data = true ->
  let r := ChatUI.sendMessage_settle uuid (Fulfilled res) st w in
  let q := ChatPage.sendMessage_settle (Fulfilled res) sp w in
  (exists a,
      ChatUI.messages (fst r) = (ChatUI.messages st ++ [a])%list
      /\ ChatUI.role a = assistant
      /\ ChatUI.content a = VStr "(no answer returned)")
  /\ ChatUI.error (fst r) = ChatUI.error st
  /\ snd r = w
  /\ (exists a,
        ChatPage.messages (fst q) = (ChatPage.messages sp ++ [a])%list
        /\ ChatPage.role a = assistant
        /\ ChatPage.content a = VStr "(No answer provided.)")
  /\ ChatPage.error (fst q) = ChatPage.error sp
  /\ snd q = w.
Proof.
  intros Hok Hjson Hans Hsteps r q. subst r q.
  unfold ChatUI.sendMessage_settle, ChatPage.sendMessage_settle,
    Api.chatRequest_settle.
  rewrite (ok_not_401 res Hok), Hok, Hjson. simpl.
  unfold steps_well_typed in Hsteps.
  destruct (get data "reasoning_steps") as [| | | | |steps|] eqn:Esteps;
    try discriminate Hsteps; unfold or_else; simpl; rewrite Hans; simpl.
  - repeat split; eexists; repeat split; reflexivity.
  - repeat split; eexists; repeat split; reflexivity.
Qed.

Lemma C8_missing_answer_gets_placeholder_witness :
  ok no_answer_response = true
  /\ (exists a,
        ChatUI.messages
          (fst (ChatUI.sendMessage_settle "id-2" (Fulfilled no_answer_response)
                  (fst sent_panel) (snd sent_panel)))
        = (ChatUI.messages (fst sent_panel) ++ [a])%list
        /\ ChatUI.role a = assistant
        /\ ChatUI.content a = VStr "(no answer returned)")
  /\ ChatUI.error
       (fst (ChatUI.sendMessage_settle "id-2" (Fulfilled no_answer_response)
               (fst sent_panel) (snd sent_panel)))
     = VNull.
Proof.
  pose proof (C8_missing_answer_gets_placeholder
                "id-2" no_answer_response
                (VObj {[ "reasoning_steps" :=
                           VArr [step_with_tool "search_documents"] ]})
                (fst sent_panel) (fst sent_page) (snd sent_panel)
                eq_refl eq_refl eq_refl eq_refl) as H.
  cbv zeta in H. destruct H as (H1 & H2 & _).
  split; [reflexivity|]. split; [exact H1|]. rewrite H2. reflexivity.
Defined.

(** Both controllers end in their [catch] block on it: no assistant message,
    and an error to show. *)
Lemma C8_untyped_steps_record_an_error :
  ok untyped_steps_response = true
  /\ (exists data, json untyped_steps_response = Fulfilled data
                   /\ get data "answer" = VUndef)
  /\ ChatUI.messages
       (fst (ChatUI.sendMessage_settle "id-2" (Fulfilled untyped_steps_response)
               (fst sent_panel) (snd sent_panel)))
     = ChatUI.messages (fst sent_panel)
  /\ ChatUI.error
       (fst (ChatUI.sendMessage_settle "id-2" (Fulfilled untyped_steps_response)
               (fst sent_panel) (snd sent_panel)))
     = VStr "data.reasoning_steps.map is not a function"
  /\ ChatPage.messages
       (fst (ChatPage.sendMessage_settle (Fulfilled untyped_steps_response)
               (fst sent_page) (snd sent_page)))
     = ChatPage.messages (fst sent_page)
  /\ ChatPage.error
       (fst (ChatPage.sendMessage_settle (Fulfilled untyped_steps_response)
               (fst sent_page) (snd sent_page)))
     = VStr "data.reasoning_steps.map is not a function".
Proof.
  split; [reflexivity|]. split; [eexists; split; reflexivity|].
  repeat split; reflexivity.
Qed.

(** C10. For every chat response with a status in 200..299 whose body is not
    JSON, the continuation of chat-ui's [sendMessage] does not reach its
    [catch] block: it takes [{ error: "Invalid JSON from server" }] for the
    body, which has no answer, and appends one assistant message with the
    placeholder answer and no tools; the error state and the world are left
    as they were. *)
Theorem C10_invalid_json_on_success_gets_placeholder
        (uuid : string) (res : Response) (e : Val)
        (st : ChatUI.State) (w : World) :
  ok res = true ->
  json res = Rejected e ->
  ChatUI.sendMessage_settle uuid (Fulfilled res) st w
  = (ChatUI.setSending false
       (ChatUI.setMessages
          (fun m => (m ++ [{| ChatUI.id := uuid;
                              ChatUI.role := assistant;
                              ChatUI.content := VStr "(no answer returned)";
                              ChatUI.tools := Some [] |}])%list) st), w)
  /\ ChatUI.error (fst (ChatUI.sendMessage_settle uuid (Fulfilled res) st w))
     = ChatUI.error st.
Proof.
  intros Hok Hjson.
  unfold ChatUI.sendMessage_settle.
  rewrite (ok_not_401 res Hok), Hok, Hjson. simpl.
  split; reflexivity.
Qed.

Lemma C10_invalid_json_on_success_gets_placeholder_witness :
  ok html_response = true
  /\ ChatUI.messages
       (fst (ChatUI.sendMessage_settle "id-2" (Fulfilled html_response)
               (fst sent_panel) (snd sent_panel)))
     = [ {| ChatUI.id := "id-1"; ChatUI.role := user;
            ChatUI.content := VStr "How do I reset my password?";
            ChatUI.tools := None |};
         {| ChatUI.id := "id-2"; ChatUI.role := assistant;
            ChatUI.content := VStr "(no answer returned)";
            ChatUI.tools := Some [] |} ]
  /\ ChatUI.error
       (fst (ChatUI.sendMessage_settle "id-2" (Fulfilled html_response)
               (fst sent_panel) (snd sent_panel)))
     = VNull.
Proof.
  destruct (C10_invalid_json_on_success_gets_placeholder
              "id-2" html_response (Error "Unexpected token <")
              (fst sent_panel) (snd sent_panel) eq_refl eq_refl) as [H1 H2].
  split; [reflexivity|]. split.
  - rewrite H1. reflexivity.
  - rewrite H2. reflexivity.
Defined.

(** ** Submitting while a send is in flight *)

(** C1, as the code has it. For every controller state in which a send is in
    flight ([sending], [loading]), a submission through the view is a no-op:
    the Send button of either controller and the text area of chat-ui are
    disabled, so a click, Cmd/Ctrl+Enter or a form submit runs no handler,
    the log is unchanged and no request is issued. The guard is the disabled
    control: [sendMessage] itself does not look at the flag. *)
Theorem C1_view_rejects_submit_while_sending :
  (forall uuid st w,
      ChatUI.sending st = true ->
      ChatUI.click_send uuid st w = (st, w)
      /\ ChatUI.key_send uuid st w = (st, w))
  /\ (forall sp w,
        ChatPage.loading sp = true ->
        ChatPage.submit_form sp w = (sp, w)).
Proof.
  split.
  - intros uuid st w Hs.
    unfold ChatUI.click_send, ChatUI.key_send, ChatUI.button_disabled,
      ChatUI.textarea_disabled.
    rewrite Hs, orb_true_r. simpl. split; reflexivity.
  - intros sp w Hl.
    unfold ChatPage.submit_form, ChatPage.button_disabled.
    rewrite Hl. reflexivity.
Qed.

Lemma C1_view_rejects_submit_while_sending_witness :
  (ChatUI.sending (fst sent_panel) = true
   /\ ChatUI.click_send "id-3" (fst sent_panel) (snd sent_panel) = sent_panel
   /\ ChatUI.key_send "id-3" (fst sent_panel) (snd sent_panel) = sent_panel)
  /\ (ChatPage.loading (fst sent_page) = true
      /\ ChatPage.submit_form (fst sent_page) (snd sent_page) = sent_page).
Proof.
  destruct C1_view_rejects_submit_while_sending as [H1 H2].
  split.
  - split; [reflexivity|].
    apply (H1 "id-3" (fst sent_panel) (snd sent_panel)). reflexivity.
  - split; [reflexivity|].
    apply (H2 (fst sent_page) (snd sent_page)). reflexivity.
Defined.

(** The chat page keeps the typed text while it is loading, so a second call
    of its [sendMessage] in the state the first one left appends a second
    user message and issues a second request. *)
Lemma C1_second_call_while_loading_sends_again :
  ChatPage.loading (fst sent_page) = true
  /\ length (ChatPage.messages (fst sent_page)) = 1%nat
  /\ length (fetched (snd sent_page)) = 1%nat
  /\ length (ChatPage.messages
               (fst (ChatPage.sendMessage_call (fst sent_page)
                       (snd sent_page)))) = 2%nat
  /\ length (fetched
               (snd (ChatPage.sendMessage_call (fst sent_page)
                       (snd sent_page)))) = 2%nat.
Proof. repeat split; reflexivity. Qed.

(** ** The token stores *)

Lemma usable_parts (w : World) :
  storage_usable w = true ->
  has_window w = true
  /\ access_denied (localStorage w) = false
  /\ quota_exceeded (localStorage w) = false.
Proof.
  unfold storage_usable. intros H.
  apply andb_prop in H as [H Hq]. apply andb_prop in H as [Hw Hd].
  apply negb_true_iff in Hq, Hd. auto.
Qed.

Lemma UseToken_read_clearToken (w : World) (tok : option string) :
  UseToken.read (snd (UseToken.clearToken w tok)) = None.
Proof.
  unfold UseToken.read, UseToken.mount, UseToken.clearToken,
    localStorage_removeItem, localStorage_getItem, removeItem, getItem.
  simpl.
  destruct (has_window w) eqn:Hw; simpl; [|now rewrite Hw].
  destruct (access_denied (localStorage w)) eqn:Hd; simpl; rewrite Hw; simpl.
  - now rewrite Hd.
  - now rewrite lookup_delete_eq.
Qed.

(** C3, as the code has it. Each token store keeps one string under its own
    fixed key (auth-client under [blp_token], use-token under
    [access_token]). Through one store, in a world whose local storage takes
    the write, a write of [t] changes that key alone and a read after it
    gives [t] (the mount read of use-token takes an empty string for no
    token; the component that wrote holds [t] itself); after a clear, a read
    through the same store gives nothing, in every world. *)
Theorem C3_token_round_trip_within_one_store
        (t : string) (w : World) (tok : option string) :
  storage_usable w = true ->
  AuthClient.getToken (AuthClient.setToken t w) = Some t
  /\ items (localStorage (AuthClient.setToken t w))
     = <[ AuthClient.TOKEN_KEY := t ]> (items (localStorage w))
  /\ fst (UseToken.setToken t w tok) = Some t
  /\ UseToken.read (snd (UseToken.setToken t w tok))
     = (if str_truthy t then Some t else None)
  /\ items (localStorage (snd (UseToken.setToken t w tok)))
     = <[ UseToken.TOKEN_KEY := t ]> (items (localStorage w))
  /\ AuthClient.getToken (AuthClient.clearToken w) = None
  /\ fst (UseToken.clearToken w tok) = None
  /\ UseToken.read (snd (UseToken.clearToken w tok)) = None.
Proof.
  intros Hu. destruct (usable_parts w Hu) as (Hw & Hd & Hq).
  assert (Hset : forall k,
             localStorage_setItem w k t
             = Fulfilled
                 (with_storage
                    {| items := <[ k := t ]> (items (localStorage w));
                       access_denied := false; quota_exceeded := false |} w)).
  { intros k. unfold localStorage_setItem, setItem. now rewrite Hw, Hd, Hq. }
  split; [|split; [|split; [|split; [|split; [|split; [|split]]]]]].
  - unfold AuthClient.getToken, AuthClient.setToken.
    rewrite Hw, Hset. simpl.
    unfold localStorage_getItem, getItem. simpl. rewrite Hw.
    apply lookup_insert_eq.
  - unfold AuthClient.setToken. now rewrite Hw, Hset.
  - reflexivity.
  - unfold UseToken.read, UseToken.mount, UseToken.setToken.
    rewrite Hset. simpl.
    unfold localStorage_getItem, getItem. simpl.
    rewrite Hw, lookup_insert_eq. reflexivity.
  - unfold UseToken.setToken. now rewrite Hset.
  - apply getToken_clearToken.
  - reflexivity.
  - apply UseToken_read_clearToken.
Qed.

Lemma C3_token_round_trip_within_one_store_witness :
  storage_usable browser = true
  /\ AuthClient.getToken (AuthClient.setToken "tok123" browser)
     = Some "tok123"
  /\ UseToken.read (snd (UseToken.setToken "tok123" browser None))
     = Some "tok123"
  /\ AuthClient.getToken (AuthClient.clearToken logged_in_browser) = None.
Proof.
  destruct (C3_token_round_trip_within_one_store "tok123" browser None eq_refl)
    as (H1 & _ & _ & H4 & _).
  destruct (C3_token_round_trip_within_one_store
              "tok123" logged_in_browser None eq_refl)
    as (_ & _ & _ & _ & _ & H6 & _).
  split; [reflexivity|]. split; [exact H1|]. split; [exact H4|exact H6].
Defined.

(** A token written through one store is not seen through the other, a
    clear through one store leaves the token of the other, and a write that
    the storage refuses is not read back. *)
Lemma C3_write_not_read_back :
  UseToken.read (AuthClient.setToken "tok123" browser) = None
  /\ AuthClient.getToken (snd (UseToken.setToken "tok123" browser None))
     = None
  /\ UseToken.read (AuthClient.clearToken form_browser) = Some "tok123"
  /\ AuthClient.getToken (AuthClient.setToken "tok123" full_browser) = None.
Proof. repeat split; reflexivity. Qed.

(** ** Tool names *)

Lemma filter_tools (steps : list Val) :
  forallb tool_typed steps = true ->
  List.filter truthy (List.map (fun s => get s "tool") steps)
  = List.map VStr (tool_names steps).
Proof.
  induction steps as [|s r IH]; simpl; [reflexivity|].
  intros H. apply andb_prop in H as [Hs Hr]. specialize (IH Hr).
  unfold tool_typed in Hs.
  destruct (get s "tool") as [| | | |n| |]; try discriminate Hs; simpl.
  - exact IH.
  - destruct (str_truthy n); simpl; now rewrite IH.
Qed.

Lemma Set_has_strings (acc : list string) (x : string) :
  Set_has (List.map VStr acc) (VStr x) = existsb (String.eqb x) acc.
Proof.
  unfold Set_has. induction acc as [|a acc IH]; simpl; [reflexivity|].
  now rewrite IH.
Qed.

Lemma filter_unseen_differs (acc : list string) (x : string) (l : list string) :
  existsb (String.eqb x) acc = true ->
  List.filter (unseen acc) (List.filter (differs x) l)
  = List.filter (unseen acc) l.
Proof.
  intros Hx. induction l as [|y l IH]; simpl; [reflexivity|].
  unfold differs at 1. destruct (String.eqb x y) eqn:Exy; simpl.
  - apply String.eqb_eq in Exy. subst y.
    unfold unseen at 2. rewrite Hx. simpl. exact IH.
  - destruct (unseen acc y); now rewrite IH.
Qed.

Lemma unseen_snoc (acc : list string) (x y : string) :
  unseen (acc ++ [x]) y = differs x y && unseen acc y.
Proof.
  unfold unseen, differs. rewrite existsb_app. simpl.
  rewrite orb_false_r, negb_orb, (String.eqb_sym y x). apply andb_comm.
Qed.

Lemma filter_unseen_snoc (acc : list string) (x : string) (l : list string) :
  List.filter (unseen (acc ++ [x])) l
  = List.filter (unseen acc) (List.filter (differs x) l).
Proof.
  induction l as [|y l IH]; simpl; [reflexivity|].
  rewrite unseen_snoc.
  destruct (differs x y); simpl; [|exact IH].
  destruct (unseen acc y); now rewrite IH.
Qed.

(** [new Set(...)] over strings, started from the names seen so far. *)
Lemma Set_fold_strings (l acc : list string) :
  fold_left Set_add (List.map VStr l) (List.map VStr acc)
  = List.map VStr (acc ++ List.filter (unseen acc) (first_seen l)).
Proof.
  revert acc. induction l as [|x r IH]; intros acc; simpl.
  - now rewrite app_nil_r.
  - unfold Set_add at 2. rewrite Set_has_strings.
    destruct (existsb (String.eqb x) acc) eqn:Hseen.
    + rewrite IH. unfold unseen at 2. rewrite Hseen. simpl.
      now rewrite filter_unseen_differs.
    + replace (List.map VStr acc ++ [VStr x])%list
        with (List.map VStr (acc ++ [x])) by now rewrite List.map_app.
      rewrite IH. unfold unseen at 2. rewrite Hseen. simpl.
      rewrite filter_unseen_snoc, <- app_assoc. reflexivity.
Qed.

Lemma Set_new_strings (l : list string) :
  Array_from (Set_new (List.map VStr l)) = List.map VStr (first_seen l).
Proof.
  unfold Array_from, Set_new.
  change (@nil Val) with (List.map VStr []).
  rewrite Set_fold_strings. simpl. f_equal.
  induction (first_seen l) as [|y t IH]; simpl; [reflexivity|].
  now rewrite IH.
Qed.

Lemma first_seen_In (l : list string) (n : string) :
  In n (first_seen l) <-> In n l.
Proof.
  induction l as [|x r IH]; simpl; [tauto|].
  rewrite filter_In, IH. unfold differs.
  destruct (String.eqb x n) eqn:E.
  - apply String.eqb_eq in E. subst. simpl. intuition discriminate.
  - simpl. tauto.
Qed.

Lemma first_seen_NoDup (l : list string) : List.NoDup (first_seen l).
Proof.
  induction l as [|x r IH]; simpl; constructor.
  - rewrite filter_In. intros [_ H].
    unfold differs in H. now rewrite String.eqb_refl in H.
  - now apply List.NoDup_filter.
Qed.

Lemma tool_names_In (steps : list Val) (n : string) :
  In n (tool_names steps)
  <-> n <> "" /\ exists s, In s steps /\ get s "tool" = VStr n.
Proof.
  induction steps as [|s r IH]; simpl.
  - split; [tauto|]. intros (_ & x & [] & _).
  - assert (Hr : In n (tool_names r) ->
                 n <> "" /\ exists s0, (s = s0 \/ In s0 r)
                                        /\ get s0 "tool" = VStr n).
    { intros H. apply IH in H as (Hn & s0 & Hs0 & Hg). eauto. }
    assert (Hl : forall s0, In s0 r -> get s0 "tool" = VStr n -> n <> "" ->
                            In n (tool_names r)).
    { intros s0 Hs0 Hg Hn. apply IH. eauto. }
    destruct (get s "tool") as [| | | |m| |] eqn:Eg;
      try (split; [exact Hr|];
           intros (Hn & s0 & [<-|Hs0] & Hg);
           [rewrite Eg in Hg; discriminate | eauto]).
    destruct (str_truthy m) eqn:Em; simpl.
    + split.
      * intros [<-|H]; [|auto].
        split; [now destruct m|]. eauto.
      * intros (Hn & s0 & [<-|Hs0] & Hg); [|eauto].
        rewrite Eg in Hg. injection Hg as ->. now left.
    + split; [exact Hr|].
      intros (Hn & s0 & [<-|Hs0] & Hg); [|eauto].
      rewrite Eg in Hg. injection Hg as ->. now destruct n.
Qed.

(** C6. For every sequence of reasoning steps reported in a chat response
    with a status in 200..299 (each step with a string [tool] or none), the
    badges shown under the assistant message that the continuation of
    [sendMessage] appends are the reported tool names with every name kept at
    its first occurrence only: no name twice, every reported name present, in
    first-seen order. chat-ui deduplicates when it builds the message, the
    chat page when it renders it. Steps without a tool name, or with an empty
    one, report no name. *)
Theorem C6_tools_shown_once_in_first_seen_order
        (uuid : string) (res : Response) (data : Val) (steps : list Val)
        (st : ChatUI.State) (sp : ChatPage.State) (w : World) :
  ok res = true ->
  json res = Fulfilled data ->
  get data "reasoning_steps" = VArr steps ->
  forallb tool_typed steps = true ->
  let r := ChatUI.sendMessage_settle uuid (Fulfilled res) st w in
  let q := ChatPage.sendMessage_settle (Fulfilled res) sp w in
  let shown := first_seen (tool_names steps) in
  (exists a,
      ChatUI.messages (fst r) = (ChatUI.messages st ++ [a])%list
      /\ ChatUI.shown_tools a = List.map VStr shown)
  /\ (exists a,
        ChatPage.messages (fst q) = (ChatPage.messages sp ++ [a])%list
        /\ ChatPage.shown_tools a = List.map VStr shown)
  /\ List.NoDup shown
  /\ (forall n,
        In n shown
        <-> n <> "" /\ exists s, In s steps /\ get s "tool" = VStr n).
Proof.
  intros Hok Hjson Hsteps Htyped r q shown. subst r q shown.
  split; [|split; [|split]].
  - unfold ChatUI.sendMessage_settle.
    rewrite (ok_not_401 res Hok), Hok, Hjson. simpl.
    rewrite Hsteps. unfold or_else. simpl.
    eexists. split; [reflexivity|].
    unfold ChatUI.shown_tools. simpl.
    rewrite (filter_tools steps Htyped). apply Set_new_strings.
  - unfold ChatPage.sendMessage_settle, Api.chatRequest_settle.
    rewrite Hok, Hjson. simpl. rewrite Hsteps. simpl.
    eexists. split; [reflexivity|].
    rewrite (filter_tools steps Htyped).
    unfold ChatPage.shown_tools. simpl.
    destruct (tool_names steps) as [|x l]; [reflexivity|].
    change (match List.map VStr (x :: l) with [] => false | _ :: _ => true end)
      with true.
    apply Set_new_strings.
  - apply first_seen_NoDup.
  - intros n. rewrite first_seen_In. apply tool_names_In.
Qed.

Lemma C6_tools_shown_once_in_first_seen_order_witness :
  tool_names repeated_steps = ["a"; "b"; "a"; "c"]
  /\ (exists a,
        ChatUI.messages
          (fst (ChatUI.sendMessage_settle "id-2"
                  (Fulfilled repeated_tools_response)
                  (fst sent_panel) (snd sent_panel)))
        = (ChatUI.messages (fst sent_panel) ++ [a])%list
        /\ ChatUI.shown_tools a = [VStr "a"; VStr "b"; VStr "c"])
  /\ (exists a,
        ChatPage.messages
          (fst (ChatPage.sendMessage_settle
                  (Fulfilled repeated_tools_response)
                  (fst sent_page) (snd sent_page)))
        = (ChatPage.messages (fst sent_page) ++ [a])%list
        /\ ChatPage.shown_tools a = [VStr "a"; VStr "b"; VStr "c"]).
Proof.
  pose proof (C6_tools_shown_once_in_first_seen_order
                "id-2" repeated_tools_response
                (VObj (<[ "answer" := VStr "Done." ]>
                       {[ "reasoning_steps" := VArr repeated_steps ]}))
                repeated_steps (fst sent_panel) (fst sent_page)
                (snd sent_panel) eq_refl eq_refl eq_refl eq_refl) as H.
  cbv zeta in H. destruct H as (H1 & H2 & _).
  split; [reflexivity|]. split; [exact H1|exact H2].
Defined.

(** ** The API client *)

(** C9. Every request that [chatRequest] issues has the header
    [Authorization: Bearer <token>] exactly when it was given a token (a
    non-empty string), and no [Authorization] header otherwise. The chat
    page passes the token it holds, so its request has the header exactly
    when a token is held; chat-ui sends only with a token held, and always
    with the header. *)
Theorem C9_bearer_header_iff_token_held :
  (forall query token w, exists r,
      fetched (Api.chatRequest_call query token w) = (fetched w ++ [r])%list
      /\ headers r !! "Authorization"
         = (if held token then Some ("Bearer " ++ default "" token)
            else None))
  /\ (forall sp w,
        str_truthy (trim (ChatPage.input sp)) = true ->
        exists r,
          fetched (snd (ChatPage.sendMessage_call sp w))
          = (fetched w ++ [r])%list
          /\ headers r !! "Authorization"
             = (if held (ChatPage.token sp)
                then Some ("Bearer " ++ default "" (ChatPage.token sp))
                else None))
  /\ (forall uuid st w,
        str_truthy (trim (ChatUI.input st)) = true ->
        held (ChatUI.token st) = true ->
        exists r,
          fetched (snd (ChatUI.sendMessage_call uuid st w))
          = (fetched w ++ [r])%list
          /\ headers r !! "Authorization"
             = Some ("Bearer " ++ default "" (ChatUI.token st))).
Proof.
  assert (Hh : forall token,
             Api.chatRequest_headers token !! "Authorization"
             = (if held token then Some ("Bearer " ++ default "" token)
                else None)).
  { intros [t|]; simpl; [|reflexivity].
    unfold Api.chatRequest_headers.
    destruct (str_truthy t); [apply lookup_insert_eq|reflexivity]. }
  split; [|split].
  - intros query token w. eexists. split; [reflexivity|]. apply Hh.
  - intros sp w Hin. unfold ChatPage.sendMessage_call. rewrite Hin. simpl.
    eexists. split; [reflexivity|]. simpl. rewrite Hh.
    unfold ChatPage.token_or_undefined.
    destruct (held (ChatPage.token sp)) eqn:Hheld; [now rewrite Hheld|].
    reflexivity.
  - intros uuid st w Hin Htok. unfold ChatUI.sendMessage_call.
    rewrite Hin, Htok. simpl.
    eexists. split; [reflexivity|]. simpl.
    unfold ChatUI.chat_headers.
    rewrite lookup_insert_ne by discriminate.
    rewrite lookup_singleton_eq.
    destruct (ChatUI.token st); [reflexivity|discriminate].
Qed.

Lemma C9_bearer_header_iff_token_held_witness :
  (str_truthy (trim (ChatPage.input typed_page)) = true
   /\ held (ChatPage.token typed_page) = false
   /\ exists r,
       fetched (snd (ChatPage.sendMessage_call typed_page browser)) = [r]
       /\ headers r !! "Authorization" = None)
  /\ (str_truthy (trim (ChatUI.input typed_panel)) = true
      /\ held (ChatUI.token typed_panel) = true
      /\ exists r,
          fetched (snd (ChatUI.sendMessage_call "id-1" typed_panel
                          logged_in_browser)) = [r]
          /\ headers r !! "Authorization" = Some "Bearer tok123").
Proof.
  destruct C9_bearer_header_iff_token_held as (_ & H2 & H3).
  split.
  - split; [reflexivity|]. split; [reflexivity|].
    apply (H2 typed_page browser). reflexivity.
  - split; [reflexivity|]. split; [reflexivity|].
    apply (H3 "id-1" typed_panel logged_in_browser); reflexivity.
Defined.

Lemma sendMessage_call_input_cleared (uuid : string) (st : ChatUI.State)
      (w : World) :
  input_cleared st ->
  input_cleared (fst (ChatUI.sendMessage_call uuid st w)).
Proof.
  intros Hinv. unfold ChatUI.sendMessage_call.
  destruct (negb (str_truthy (trim (ChatUI.input st)))
            || negb (held (ChatUI.token st))); simpl; [exact Hinv|].
  intros _. reflexivity.
Qed.

Lemma panel_step_input_cleared (c : ChatUI.State * World) (e : PanelEvent) :
  input_cleared (fst c) -> input_cleared (fst (panel_step c e)).
Proof.
  destruct c as [st w]. simpl. intros Hinv.
  destruct e as [|v|uuid|uuid|uuid out|]; simpl.
  - unfold ChatUI.mount.
    destruct (negb (held (AuthClient.getToken w))); exact Hinv.
  - unfold ChatUI.change_input, ChatUI.textarea_disabled.
    destruct (ChatUI.sending st) eqn:Hs.
    + rewrite orb_true_r. exact Hinv.
    + destruct (negb (held (ChatUI.token st))); simpl; [exact Hinv|].
      unfold input_cleared. simpl. rewrite Hs. discriminate.
  - unfold ChatUI.click_send.
    destruct (ChatUI.button_disabled st); [exact Hinv|].
    now apply sendMessage_call_input_cleared.
  - unfold ChatUI.key_send.
    destruct (ChatUI.textarea_disabled st); [exact Hinv|].
    now apply sendMessage_call_input_cleared.
  - unfold input_cleared.
    destruct (ChatUI_settle_log uuid out st w) as [Hs _].
    simpl in Hs. rewrite Hs. discriminate.
  - exact Hinv.
Qed.

Lemma panel_run_from_input_cleared (es : list PanelEvent)
      (c : ChatUI.State * World) :
  input_cleared (fst c) -> input_cleared (fst (fold_left panel_step es c)).
Proof.
  revert c. induction es as [|e es IH]; intros c Hinv; simpl; [exact Hinv|].
  apply IH. now apply panel_step_input_cleared.
Qed.

(** X1. In every state a chat-ui panel can reach, a send in flight means that the
    text area is empty, so even a direct call of [sendMessage] is rejected:
    the log is unchanged and no request is issued. *)
Theorem ChatUI_direct_call_rejected_while_sending
        (w : World) (es : list PanelEvent) (uuid : string) :
  ChatUI.sending (fst (panel_run w es)) = true ->
  ChatUI.sendMessage_call uuid (fst (panel_run w es)) (snd (panel_run w es))
  = panel_run w es.
Proof.
  intros Hs.
  assert (Hinv : input_cleared (fst (panel_run w es))).
  { apply panel_run_from_input_cleared. intros H. discriminate H. }
  unfold ChatUI.sendMessage_call. rewrite (Hinv Hs). simpl.
  now destruct (panel_run w es).
Qed.

Lemma ChatUI_direct_call_rejected_while_sending_witness :
  ChatUI.sending
    (fst (panel_run logged_in_browser
            [Mounted; Typed "hello"; ClickedSend "id-1"])) = true
  /\ length
       (fetched
          (snd (panel_run logged_in_browser
                  [Mounted; Typed "hello"; ClickedSend "id-1"]))) = 1%nat
  /\ ChatUI.sendMessage_call "id-2"
       (fst (panel_run logged_in_browser
               [Mounted; Typed "hello"; ClickedSend "id-1"]))
       (snd (panel_run logged_in_browser
               [Mounted; Typed "hello"; ClickedSend "id-1"]))
     = panel_run logged_in_browser
         [Mounted; Typed "hello"; ClickedSend "id-1"].
Proof.
  split; [reflexivity|]. split; [reflexivity|].
  apply (ChatUI_direct_call_rejected_while_sending
           logged_in_browser [Mounted; Typed "hello"; ClickedSend "id-1"]
           "id-2").
  reflexivity.
Defined.

(** ** Session guard, idle state, error text *)

(** X2. Without a stored token the mount effect of chat-ui leaves for the entry
    view and holds no token; from there every call of [sendMessage] is
    rejected, whatever is typed. *)
Theorem ChatUI_mount_without_token_redirects
        (w : World) (uuid v : string) :
  held (AuthClient.getToken w) = false ->
  ChatUI.mount ChatUI.initial w = (ChatUI.initial, router_push "/" w)
  /\ ChatUI.sendMessage_call uuid
       (ChatUI.setInput v (fst (ChatUI.mount ChatUI.initial w)))
       (snd (ChatUI.mount ChatUI.initial w))
     = (ChatUI.setInput v ChatUI.initial, router_push "/" w).
Proof.
  intros Hh. unfold ChatUI.mount. rewrite Hh. simpl.
  split; [reflexivity|].
  unfold ChatUI.sendMessage_call. simpl. now rewrite orb_true_r.
Qed.

Lemma ChatUI_mount_without_token_redirects_witness :
  held (AuthClient.getToken browser) = false
  /\ ChatUI.mount ChatUI.initial browser
     = (ChatUI.initial, router_push "/" browser)
  /\ pushed (snd (ChatUI.mount ChatUI.initial browser)) = ["/"].
Proof.
  destruct (ChatUI_mount_without_token_redirects browser "id-1" "hello" eq_refl)
    as [H _].
  split; [reflexivity|]. split; [exact H|]. rewrite H. reflexivity.
Defined.

(** X3. Whatever the outcome of the request, the continuation of [sendMessage]
    ends with the in-flight flag off. Both controllers. *)
Theorem sendMessage_returns_to_idle
        (uuid : string) (out : FetchOutcome)
        (st : ChatUI.State) (sp : ChatPage.State) (w : World) :
  ChatUI.sending (fst (ChatUI.sendMessage_settle uuid out st w)) = false
  /\ ChatPage.loading (fst (ChatPage.sendMessage_settle out sp w)) = false.
Proof.
  split.
  - apply (ChatUI_settle_log uuid out st w).
  - apply (ChatPage_settle_log out sp w).
Qed.

(** X4. On a status outside 200..299 other than 401, chat-ui shows the body's
    [detail], else its [error], else the status line. *)
Theorem ChatUI_error_text_prefers_detail
        (uuid : string) (res : Response) (st : ChatUI.State) (w : World) :
  ok res = false ->
  status res <> 401%N ->
  let data := match json res with
              | Fulfilled d => d
              | Rejected _ =>
                  VObj {[ "error" := VStr "Invalid JSON from server" ]}
              end in
  ChatUI.error (fst (ChatUI.sendMessage_settle uuid (Fulfilled res) st w))
  = if truthy (get data "detail") then get data "detail"
    else if truthy (get data "error") then get data "error"
         else VStr ("Request failed with status "
                    ++ num_to_string (status res)).
Proof.
  intros Hok H401 data. subst data.
  unfold ChatUI.sendMessage_settle.
  apply N.eqb_neq in H401. rewrite H401, Hok. simpl.
  unfold or_else.
  destruct (truthy (get _ "detail")) eqn:Hd; [now rewrite Hd|].
  destruct (truthy (get _ "error")); reflexivity.
Qed.

Lemma ChatUI_error_text_prefers_detail_witness :
  ok not_found = false
  /\ status not_found <> 401%N
  /\ ChatUI.error
       (fst (ChatUI.sendMessage_settle "id-2" (Fulfilled not_found)
               (fst sent_panel) (snd sent_panel)))
     = VStr "Request failed with status 404".
Proof.
  split; [reflexivity|]. split; [discriminate|].
  apply (ChatUI_error_text_prefers_detail
           "id-2" not_found (fst sent_panel) (snd sent_panel) eq_refl).
  discriminate.
Defined.

(** The scenario of the specification: the question is sent, the backend
    answers with one tool, and the log ends with the answer and that tool. *)
Example chat_scenario_answer_with_tool :
  ChatPage.messages
    (fst (ChatPage.sendMessage_settle (Fulfilled answer_response)
            (fst (ChatPage.sendMessage_call ChatPage.initial browser))
            (snd (ChatPage.sendMessage_call ChatPage.initial browser))))
  = [ {| ChatPage.role := user;
         ChatPage.content :=
           VStr "I forgot my login credentials. what do i do?";
         ChatPage.tools := None |};
      {| ChatPage.role := assistant;
         ChatPage.content := VStr "Reset via settings.";
         ChatPage.tools := Some [VStr "search_documents"] |} ]
  /\ ChatUI.messages
       (fst (ChatUI.sendMessage_settle "id-2" (Fulfilled answer_response)
               (fst sent_panel) (snd sent_panel)))
     = [ {| ChatUI.id := "id-1"; ChatUI.role := user;
            ChatUI.content := VStr "How do I reset my password?";
            ChatUI.tools := None |};
         {| ChatUI.id := "id-2"; ChatUI.role := assistant;
            ChatUI.content := VStr "Reset via settings.";
            ChatUI.tools := Some [VStr "search_documents"] |} ].
Proof. split; reflexivity. Qed.

(** ** More on the token stores *)

Lemma setItem_usable (w : World) (k t : string) :
  storage_usable w = true ->
  localStorage_setItem w k t
  = Fulfilled
      (with_storage
         {| items := <[ k := t ]> (items (localStorage w));
            access_denied := false; quota_exceeded := false |} w).
Proof.
  intros Hu. destruct (usable_parts w Hu) as (Hw & Hd & Hq).
  unfold localStorage_setItem, setItem. now rewrite Hw, Hd, Hq.
Qed.

Lemma setItem_unusable (w : World) (k t : string) :
  storage_usable w = false ->
  exists e, localStorage_setItem w k t = Rejected e.
Proof.
  unfold storage_usable, localStorage_setItem, setItem. intros Hu.
  destruct (has_window w); [|eauto].
  destruct (access_denied (localStorage w)); [eauto|].
  destruct (quota_exceeded (localStorage w)); [eauto|discriminate].
Qed.


(** X6. Whatever the state of the storage, a write or a clear through a
    token store leaves every storage key other than that store's own as it
    was (auth-client leaves the key of use-token alone, and use-token that of
    auth-client), and never calls the router or the network. *)
Theorem token_stores_touch_only_their_key
        (k t : string) (w : World) (tok : option string) :
  (k <> AuthClient.TOKEN_KEY ->
   items (localStorage (AuthClient.setToken t w)) !! k
   = items (localStorage w) !! k
   /\ items (localStorage (AuthClient.clearToken w)) !! k
      = items (localStorage w) !! k)
  /\ (k <> UseToken.TOKEN_KEY ->
      items (localStorage (snd (UseToken.setToken t w tok))) !! k
      = items (localStorage w) !! k
      /\ items (localStorage (snd (UseToken.clearToken w tok))) !! k
         = items (localStorage w) !! k)
  /\ Forall
       (fun w' => pushed w' = pushed w /\ fetched w' = fetched w)
       [ AuthClient.setToken t w; AuthClient.clearToken w;
         snd (UseToken.setToken t w tok); snd (UseToken.clearToken w tok) ].
Proof.
  assert (Hset : forall key w',
             match localStorage_setItem w key t with
             | Fulfilled w1 => w1
             | Rejected _ => w
             end = w' ->
             (k <> key ->
              items (localStorage w') !! k = items (localStorage w) !! k)
             /\ pushed w' = pushed w /\ fetched w' = fetched w).
  { intros key w' <-. unfold localStorage_setItem, setItem.
    destruct (has_window w); [|auto].
    destruct (access_denied (localStorage w)); [auto|].
    destruct (quota_exceeded (localStorage w)); [auto|]. simpl.
    split; [|auto]. intros Hk. apply lookup_insert_ne. congruence. }
  assert (Hdel : forall key w',
             match localStorage_removeItem w key with
             | Fulfilled w1 => w1
             | Rejected _ => w
             end = w' ->
             (k <> key ->
              items (localStorage w') !! k = items (localStorage w) !! k)
             /\ pushed w' = pushed w /\ fetched w' = fetched w).
  { intros key w' <-. unfold localStorage_removeItem, removeItem.
    destruct (has_window w); [|auto].
    destruct (access_denied (localStorage w)); [auto|]. simpl.
    split; [|auto]. intros Hk. apply lookup_delete_ne. congruence. }
  assert (Has : (k <> AuthClient.TOKEN_KEY ->
                 items (localStorage (AuthClient.setToken t w)) !! k
                 = items (localStorage w) !! k)
                /\ pushed (AuthClient.setToken t w) = pushed w
                /\ fetched (AuthClient.setToken t w) = fetched w).
  { unfold AuthClient.setToken.
    destruct (negb (has_window w)); [auto|].
    now apply (Hset AuthClient.TOKEN_KEY). }
  assert (Hac : (k <> AuthClient.TOKEN_KEY ->
                 items (localStorage (AuthClient.clearToken w)) !! k
                 = items (localStorage w) !! k)
                /\ pushed (AuthClient.clearToken w) = pushed w
                /\ fetched (AuthClient.clearToken w) = fetched w).
  { unfold AuthClient.clearToken.
    destruct (negb (has_window w)); [auto|].
    now apply (Hdel AuthClient.TOKEN_KEY). }
  pose proof (Hset UseToken.TOKEN_KEY (snd (UseToken.setToken t w tok))
                eq_refl) as Hus.
  pose proof (Hdel UseToken.TOKEN_KEY (snd (UseToken.clearToken w tok))
                eq_refl) as Huc.
  destruct Has as (Has1 & Has2 & Has3). destruct Hac as (Hac1 & Hac2 & Hac3).
  destruct Hus as (Hus1 & Hus2 & Hus3). destruct Huc as (Huc1 & Huc2 & Huc3).
  split; [auto|]. split; [auto|].
  repeat (constructor; [split; assumption|]). constructor.
Qed.

Lemma token_stores_touch_only_their_key_witness :
  (UseToken.TOKEN_KEY <> AuthClient.TOKEN_KEY
   /\ items (localStorage (AuthClient.setToken "tok456" form_browser))
        !! UseToken.TOKEN_KEY
      = Some "tok123"
   /\ items (localStorage (AuthClient.clearToken form_browser))
        !! UseToken.TOKEN_KEY
      = Some "tok123")
  /\ (AuthClient.TOKEN_KEY <> UseToken.TOKEN_KEY
      /\ items (localStorage
                  (snd (UseToken.setToken "tok456" logged_in_browser None)))
           !! AuthClient.TOKEN_KEY
         = Some "tok123"
      /\ items (localStorage
                  (snd (UseToken.clearToken logged_in_browser None)))
           !! AuthClient.TOKEN_KEY
         = Some "tok123").
Proof.
  destruct (token_stores_touch_only_their_key
              UseToken.TOKEN_KEY "tok456" form_browser None) as (H1 & _).
  destruct (token_stores_touch_only_their_key
              AuthClient.TOKEN_KEY "tok456" logged_in_browser None)
    as (_ & H2 & _).
  split.
  - split; [discriminate|]. destruct H1 as [Ha Hb]; [discriminate|].
    split; [rewrite Ha|rewrite Hb]; reflexivity.
  - split; [discriminate|]. destruct H2 as [Ha Hb]; [discriminate|].
    split; [rewrite Ha|rewrite Hb]; reflexivity.
Defined.

Lemma AuthClient_setToken_usable (t : string) (w : World) :
  storage_usable w = true ->
  AuthClient.setToken t w
  = with_storage
      {| items := <[ AuthClient.TOKEN_KEY := t ]> (items (localStorage w));
         access_denied := false; quota_exceeded := false |} w.
Proof.
  intros Hu. destruct (usable_parts w Hu) as (Hw & _).
  unfold AuthClient.setToken. now rewrite Hw, setItem_usable.
Qed.

Lemma UseToken_setToken_usable (t : string) (w : World) (tok : option string) :
  storage_usable w = true ->
  UseToken.setToken t w tok
  = (Some t,
     with_storage
       {| items := <[ UseToken.TOKEN_KEY := t ]> (items (localStorage w));
          access_denied := false; quota_exceeded := false |} w).
Proof.
  intros Hu. unfold UseToken.setToken. now rewrite setItem_usable.
Qed.




(** X8. The token stores degrade silently. Where the storage does not take
    the write (no window, access denied, or quota exceeded), a write through
    either store leaves the world as it was, and the [useToken] hook still
    holds the token in memory. Where the storage cannot be read (no window or
    access denied), [getToken] gives nothing, the mount read of [useToken]
    keeps what the hook held, and a clear changes nothing in the world. *)
Theorem token_stores_degrade_silently :
  (forall t w tok,
      storage_usable w = false ->
      AuthClient.setToken t w = w
      /\ UseToken.setToken t w tok = (Some t, w))
  /\ (forall w tok,
        has_window w && negb (access_denied (localStorage w)) = false ->
        AuthClient.getToken w = None
        /\ UseToken.mount w tok = tok
        /\ AuthClient.clearToken w = w
        /\ UseToken.clearToken w tok = (None, w)).
Proof.
  split.
  - intros t w tok Hu.
    unfold AuthClient.setToken, UseToken.setToken.
    destruct (setItem_unusable w AuthClient.TOKEN_KEY t Hu) as [e ->].
    destruct (setItem_unusable w UseToken.TOKEN_KEY t Hu) as [e' ->].
    split; [|reflexivity]. now destruct (negb (has_window w)).
  - intros w tok H.
    unfold AuthClient.getToken, AuthClient.clearToken, UseToken.mount,
      UseToken.clearToken, localStorage_getItem, localStorage_removeItem,
      getItem, removeItem.
    destruct (has_window w); simpl in *; [|auto].
    apply negb_false_iff in H. rewrite H. auto.
Qed.

Lemma token_stores_degrade_silently_witness :
  (storage_usable full_browser = false
   /\ AuthClient.setToken "tok123" full_browser = full_browser
   /\ UseToken.setToken "tok123" full_browser None
      = (Some "tok123", full_browser))
  /\ (has_window locked_browser
      && negb (access_denied (localStorage locked_browser)) = false
      /\ AuthClient.getToken locked_browser = None
      /\ UseToken.mount locked_browser (Some "held") = Some "held"
      /\ AuthClient.clearToken locked_browser = locked_browser
      /\ UseToken.clearToken locked_browser (Some "held")
         = (None, locked_browser)).
Proof.
  destruct token_stores_degrade_silently as [H1 H2].
  split.
  - split; [reflexivity|]. apply (H1 "tok123" full_browser None). reflexivity.
  - split; [reflexivity|].
    apply (H2 locked_browser (Some "held")). reflexivity.
Defined.

(** ** More on the chat controllers *)

(** X5. For every chat response with a status in 200..299 whose body parses
    as JSON with a truthy [answer] (and [reasoning_steps] absent or an
    array), the continuation of [sendMessage] appends one assistant message
    whose content is that answer, records no error, and in the chat page
    clears the text area. Both controllers. *)
Theorem answer_becomes_assistant_message
        (uuid : string) (res : Response) (data : Val)
        (st : ChatUI.State) (sp : ChatPage.State) (w : World) :
  ok res = true ->
  json res = Fulfilled data ->
  steps_well_typed data = true ->
  truthy (get data "answer") = true ->
  let r := ChatUI.sendMessage_settle uuid (Fulfilled res) st w in
  let q := ChatPage.sendMessage_settle (Fulfilled res) sp w in
  (exists a,
      ChatUI.messages (fst r) = (ChatUI.messages st ++ [a])%list
      /\ ChatUI.role a = assistant
      /\ ChatUI.content a = get data "answer")
  /\ ChatUI.error (fst r) = ChatUI.error st
  /\ (exists a,
        ChatPage.messages (fst q) = (ChatPage.messages sp ++ [a])%list
        /\ ChatPage.role a = assistant
        /\ ChatPage.content a = get data "answer")
  /\ ChatPage.error (fst q) = ChatPage.error sp
  /\ ChatPage.input (fst q) = "".
Proof.
  intros Hok Hjson Hsteps Hans r q. subst r q.
  unfold ChatUI.sendMessage_settle, ChatPage.sendMessage_settle,
    Api.chatRequest_settle.
  rewrite (ok_not_401 res Hok), Hok, Hjson. simpl.
  unfold steps_well_typed in Hsteps.
  destruct (get data "reasoning_steps") as [| | | | |steps|] eqn:Esteps;
    try discriminate Hsteps;
    unfold ChatPage.answered; simpl; unfold or_else; simpl;
    rewrite Hans; simpl;
    (split; [eexists; repeat split; reflexivity|]);
    (split; [reflexivity|]);
    (split; [eexists; repeat split; reflexivity|]);
    split; reflexivity.
Qed.

Lemma answer_becomes_assistant_message_witness :
  ok answer_response = true
  /\ (exists a,
        ChatUI.messages
          (fst (ChatUI.sendMessage_settle "id-2" (Fulfilled answer_response)
                  (fst sent_panel) (snd sent_panel)))
        = (ChatUI.messages (fst sent_panel) ++ [a])%list
        /\ ChatUI.role a = assistant
        /\ ChatUI.content a = VStr "Reset via settings.")
  /\ ChatPage.input
       (fst (ChatPage.sendMessage_settle (Fulfilled answer_response)
               (fst sent_page) (snd sent_panel)))
     = "".
Proof.
  pose proof (answer_becomes_assistant_message
                "id-2" answer_response answer_body
                (fst sent_panel) (fst sent_page) (snd sent_panel)
                eq_refl eq_refl eq_refl eq_refl) as H.
  cbv zeta in H. destruct H as (H1 & _ & _ & _ & H5).
  split; [reflexivity|]. split; [exact H1|exact H5].
Defined.

(** X9. The request that [sendMessage] issues is a POST to [/chat] whose
    body carries, as [query], exactly the content of the user message it
    appends, and [verbose: true]. chat-ui sends and shows the trimmed text;
    the chat page sends and shows the text as typed, surrounding white space
    included. *)
Theorem query_sent_is_message_shown :
  (forall uuid st w,
      str_truthy (trim (ChatUI.input st)) = true ->
      held (ChatUI.token st) = true ->
      exists m r,
        ChatUI.messages (fst (ChatUI.sendMessage_call uuid st w))
        = (ChatUI.messages st ++ [m])%list
        /\ fetched (snd (ChatUI.sendMessage_call uuid st w))
           = (fetched w ++ [r])%list
        /\ ChatUI.content m = VStr (trim (ChatUI.input st))
        /\ get (body r) "query" = ChatUI.content m
        /\ get (body r) "verbose" = VBool true
        /\ method r = "POST"
        /\ url r = "http://localhost:8000/chat")
  /\ (forall sp w,
        str_truthy (trim (ChatPage.input sp)) = true ->
        exists m r,
          ChatPage.messages (fst (ChatPage.sendMessage_call sp w))
          = (ChatPage.messages sp ++ [m])%list
          /\ fetched (snd (ChatPage.sendMessage_call sp w))
             = (fetched w ++ [r])%list
          /\ ChatPage.content m = VStr (ChatPage.input sp)
          /\ get (body r) "query" = ChatPage.content m
          /\ get (body r) "verbose" = VBool true
          /\ method r = "POST"
          /\ url r = Api.API_BASE w ++ "/chat").
Proof.
  split.
  - intros uuid st w Hin Htok. unfold ChatUI.sendMessage_call.
    rewrite Hin, Htok. simpl.
    eexists. eexists. repeat split; reflexivity.
  - intros sp w Hin. unfold ChatPage.sendMessage_call.
    rewrite Hin. simpl.
    eexists. eexists. repeat split; reflexivity.
Qed.

Lemma query_sent_is_message_shown_witness :
  (str_truthy (trim (ChatUI.input typed_panel)) = true
   /\ held (ChatUI.token typed_panel) = true
   /\ exists m r,
       ChatUI.messages
         (fst (ChatUI.sendMessage_call "id-1" typed_panel logged_in_browser))
       = (ChatUI.messages typed_panel ++ [m])%list
       /\ fetched
            (snd (ChatUI.sendMessage_call "id-1" typed_panel
                    logged_in_browser))
          = (fetched logged_in_browser ++ [r])%list
       /\ ChatUI.content m = VStr "How do I reset my password?"
       /\ get (body r) "query" = ChatUI.content m
       /\ get (body r) "verbose" = VBool true
       /\ method r = "POST"
       /\ url r = "http://localhost:8000/chat")
  /\ (str_truthy
        (trim (ChatPage.input (ChatPage.setInput " hi " typed_page))) = true
      /\ exists m r,
          ChatPage.messages
            (fst (ChatPage.sendMessage_call
                    (ChatPage.setInput " hi " typed_page) browser))
          = (ChatPage.messages (ChatPage.setInput " hi " typed_page)
             ++ [m])%list
          /\ fetched
               (snd (ChatPage.sendMessage_call
                       (ChatPage.setInput " hi " typed_page) browser))
             = (fetched browser ++ [r])%list
          /\ ChatPage.content m = VStr " hi "
          /\ get (body r) "query" = ChatPage.content m
          /\ get (body r) "verbose" = VBool true
          /\ method r = "POST"
          /\ url r = "http://localhost:8000/chat").
Proof.
  destruct query_sent_is_message_shown as [H1 H2].
  split.
  - split; [reflexivity|]. split; [reflexivity|].
    apply (H1 "id-1" typed_panel logged_in_browser); reflexivity.
  - split; [reflexivity|].
    apply (H2 (ChatPage.setInput " hi " typed_page) browser). reflexivity.
Defined.

(** X10. What is left in the text area. chat-ui empties it when it sends,
    and the continuation never touches it, so after a failure the question
    has to be typed again. The chat page keeps the text while the request is
    pending and after a failure, so the same question can be sent again,
    and empties it exactly when it appends an answer: whenever the
    continuation appends a message the text area is emptied, and whenever it
    leaves the log as it was (a failure, a 2xx body that is not JSON, steps
    that are not an array) the text is kept. *)
Theorem typed_text_after_a_send :
  (forall uuid st w,
      str_truthy (trim (ChatUI.input st)) = true ->
      held (ChatUI.token st) = true ->
      ChatUI.input (fst (ChatUI.sendMessage_call uuid st w)) = "")
  /\ (forall uuid out st w,
        ChatUI.input (fst (ChatUI.sendMessage_settle uuid out st w))
        = ChatUI.input st)
  /\ (forall sp w,
        ChatPage.input (fst (ChatPage.sendMessage_call sp w))
        = ChatPage.input sp)
  /\ (forall out sp w,
        failed out = true ->
        ChatPage.input (fst (ChatPage.sendMessage_settle out sp w))
        = ChatPage.input sp
        /\ ChatPage.button_disabled
             (fst (ChatPage.sendMessage_settle out sp w))
           = negb (str_truthy (trim (ChatPage.input sp))))
  /\ (forall out sp w,
        length (ChatPage.messages (fst (ChatPage.sendMessage_settle out sp w)))
        <> length (ChatPage.messages sp) ->
        ChatPage.input (fst (ChatPage.sendMessage_settle out sp w)) = "")
  /\ (forall out sp w,
        length (ChatPage.messages (fst (ChatPage.sendMessage_settle out sp w)))
        = length (ChatPage.messages sp) ->
        ChatPage.input (fst (ChatPage.sendMessage_settle out sp w))
        = ChatPage.input sp).
Proof.
  split; [|split; [|split; [|split; [|split]]]].
  - intros uuid st w Hin Htok. unfold ChatUI.sendMessage_call.
    now rewrite Hin, Htok.
  - intros uuid out st w. unfold ChatUI.sendMessage_settle.
    destruct out as [res|e]; [|reflexivity].
    destruct (status res =? 401)%N; [reflexivity|].
    destruct (negb (ok res)); [reflexivity|].
    destruct (or_else _ _); reflexivity.
  - intros sp w. unfold ChatPage.sendMessage_call.
    destruct (negb (str_truthy (trim (ChatPage.input sp)))); reflexivity.
  - intros out sp w Hf. unfold ChatPage.sendMessage_settle.
    destruct (chatRequest_settle_failed out Hf) as [e ->].
    split; reflexivity.
  - intros out sp w. unfold ChatPage.sendMessage_settle.
    destruct (Api.chatRequest_settle out) as [res|e]; simpl;
      [|intros H; now contradiction H].
    destruct (get res "reasoning_steps"); simpl; try reflexivity;
      intros H; now contradiction H.
  - intros out sp w. unfold ChatPage.sendMessage_settle.
    destruct (Api.chatRequest_settle out) as [res|e]; simpl;
      [|reflexivity].
    destruct (get res "reasoning_steps"); simpl; try reflexivity;
      rewrite length_app; simpl; intros H; lia.
Qed.

Lemma typed_text_after_a_send_witness :
  (str_truthy (trim (ChatUI.input typed_panel)) = true
   /\ held (ChatUI.token typed_panel) = true
   /\ ChatUI.input
        (fst (ChatUI.sendMessage_call "id-1" typed_panel logged_in_browser))
      = "")
  /\ (failed (Fulfilled server_error) = true
      /\ ChatPage.input
           (fst (ChatPage.sendMessage_settle (Fulfilled server_error)
                   (fst sent_page) (snd sent_page)))
         = "How do I reset my password?"
      /\ ChatPage.button_disabled
           (fst (ChatPage.sendMessage_settle (Fulfilled server_error)
                   (fst sent_page) (snd sent_page)))
         = false).
Proof.
  destruct typed_text_after_a_send as (H1 & _ & _ & H4 & _).
  split.
  - split; [reflexivity|]. split; [reflexivity|].
    apply (H1 "id-1" typed_panel logged_in_browser); reflexivity.
  - split; [reflexivity|].
    apply (H4 (Fulfilled server_error) (fst sent_page) (snd sent_page)).
    reflexivity.
Defined.

(** X11. On a status outside 200..299 (401 included) the chat page shows
    [Chat failed (<status>): <text>], where the text is the body if it could
    be read and is not empty, else the status text, else [Unknown error]; on
    a transport failure it shows the failure's message, or a fixed text when
    there is none. *)
Theorem ChatPage_error_text
        (sp : ChatPage.State) (w : World) :
  (forall res,
      ok res = false ->
      ChatPage.error (fst (ChatPage.sendMessage_settle (Fulfilled res) sp w))
      = VStr ("Chat failed (" ++ num_to_string (status res) ++ "): "
              ++ failure_text res))
  /\ (forall e,
        ChatPage.error (fst (ChatPage.sendMessage_settle (Rejected e) sp w))
        = if truthy (get e "message") then get e "message"
          else VStr "Something went wrong sending your message.").
Proof.
  split.
  - intros res Hok.
    unfold ChatPage.sendMessage_settle, Api.chatRequest_settle, failure_text.
    rewrite Hok. simpl. now destruct (text res).
  - intros e. reflexivity.
Qed.

Lemma ChatPage_error_text_witness :
  ok unauthorized = false
  /\ ChatPage.error
       (fst (ChatPage.sendMessage_settle (Fulfilled unauthorized)
               (fst sent_page) (snd sent_page)))
     = VStr "Chat failed (401): Could not validate credentials".
Proof.
  destruct (ChatPage_error_text (fst sent_page) (snd sent_page)) as [H _].
  split; [reflexivity|]. apply (H unauthorized). reflexivity.
Defined.

(** X12. Logging out of chat-ui clears the stored token in every world and
    pushes the entry view; a chat-ui panel mounted afterwards finds no token
    and is sent to the entry view as well. Logging out does not cancel a
    pending request: the panel's own state is left as it was. *)
Theorem ChatUI_logout_ends_the_session (st : ChatUI.State) (w : World) :
  let r := ChatUI.onLogout st w in
  fst r = st
  /\ AuthClient.getToken (snd r) = None
  /\ pushed (snd r) = (pushed w ++ ["/"])%list
  /\ fetched (snd r) = fetched w
  /\ ChatUI.mount ChatUI.initial (snd r)
     = (ChatUI.initial, router_push "/" (snd r)).
Proof.
  intros r. subst r. unfold ChatUI.onLogout. simpl.
  assert (Hget : AuthClient.getToken
                   (router_push "/" (AuthClient.clearToken w)) = None)
    by apply getToken_clearToken.
  split; [reflexivity|]. split; [exact Hget|].
  split; [now rewrite pushed_clearToken|]. split.
  - unfold AuthClient.clearToken, localStorage_removeItem.
    destruct (has_window w); simpl; [|reflexivity].
    destruct (removeItem _ _); reflexivity.
  - unfold ChatUI.mount. now rewrite Hget.
Qed.

(** ** Invariants of a chat-ui panel *)

Lemma fetched_clearToken (w : World) :
  fetched (AuthClient.clearToken w) = fetched w.
Proof.
  unfold AuthClient.clearToken, localStorage_removeItem.
  destruct (has_window w); simpl; [|reflexivity].
  destruct (removeItem _ _); reflexivity.
Qed.

Lemma ChatUI_settle_fetched (uuid : string) (out : FetchOutcome)
      (st : ChatUI.State) (w : World) :
  fetched (snd (ChatUI.sendMessage_settle uuid out st w)) = fetched w.
Proof.
  unfold ChatUI.sendMessage_settle.
  destruct out as [res|e]; [|reflexivity].
  destruct (status res =? 401)%N; [simpl; apply fetched_clearToken|].
  destruct (negb (ok res)); [reflexivity|].
  destruct (or_else _ _); reflexivity.
Qed.

(** [sendMessage] of chat-ui either does nothing, or appends one user
    message and issues one request that carries a bearer token. *)
Lemma ChatUI_call_cases (uuid : string) (st : ChatUI.State) (w : World) :
  ChatUI.sendMessage_call uuid st w = (st, w)
  \/ exists m r,
      ChatUI.role m = user
      /\ ChatUI.messages (fst (ChatUI.sendMessage_call uuid st w))
         = (ChatUI.messages st ++ [m])%list
      /\ fetched (snd (ChatUI.sendMessage_call uuid st w))
         = (fetched w ++ [r])%list
      /\ authorized r.
Proof.
  unfold ChatUI.sendMessage_call.
  destruct (negb (str_truthy (trim (ChatUI.input st)))); [now left|].
  destruct (ChatUI.token st) as [t|] eqn:Ht; simpl; [|now left].
  destruct (str_truthy t) eqn:Hheld; simpl; [|now left].
  right. eexists. eexists. repeat split; try reflexivity.
  exists t. split; [exact Hheld|]. simpl.
  unfold ChatUI.chat_headers. rewrite lookup_insert_ne by discriminate.
  apply lookup_singleton_eq.
Qed.

Lemma by_user_snoc_user (l : list ChatUI.Message) (m : ChatUI.Message) :
  ChatUI.role m = user -> by_user (l ++ [m]) = (by_user l ++ [m])%list.
Proof.
  intros Hm. unfold by_user. rewrite List.filter_app. simpl. now rewrite Hm.
Qed.

Lemma by_user_snoc_assistant (l : list ChatUI.Message) (m : ChatUI.Message) :
  ChatUI.role m = assistant -> by_user (l ++ [m]) = by_user l.
Proof.
  intros Hm. unfold by_user. rewrite List.filter_app. simpl. rewrite Hm.
  apply app_nil_r.
Qed.

Lemma panel_step_accounted (w0 : World) (c : ChatUI.State * World)
      (e : PanelEvent) :
  accounted w0 c -> accounted w0 (panel_step c e).
Proof.
  destruct c as [st w]. intros Hacc.
  assert (Hcall : forall uuid,
             accounted w0 (ChatUI.sendMessage_call uuid st w)).
  { intros uuid.
    destruct (ChatUI_call_cases uuid st w)
      as [-> | (m & r & Hm & Hlog & Hreq & Hauth)]; [exact Hacc|].
    destruct Hacc as (new & Hf & Hlen & Hall). simpl in Hf, Hlen.
    exists (new ++ [r])%list. rewrite Hreq, Hlog, Hf, by_user_snoc_user by easy.
    rewrite <- app_assoc, !length_app, Hlen. repeat split.
    apply Forall_app. split; [exact Hall|]. now constructor. }
  destruct e as [|v|uuid|uuid|uuid out|]; simpl.
  - unfold ChatUI.mount.
    destruct (negb (held (AuthClient.getToken w))); exact Hacc.
  - unfold ChatUI.change_input.
    destruct (ChatUI.textarea_disabled st); exact Hacc.
  - unfold ChatUI.click_send.
    destruct (ChatUI.button_disabled st); [exact Hacc|apply Hcall].
  - unfold ChatUI.key_send.
    destruct (ChatUI.textarea_disabled st); [exact Hacc|apply Hcall].
  - destruct Hacc as (new & Hf & Hlen & Hall). simpl in Hf, Hlen.
    exists new. rewrite ChatUI_settle_fetched. split; [exact Hf|].
    split; [|exact Hall].
    destruct (ChatUI_settle_log uuid out st w)
      as [_ [Hsame | (a & Ha & Happ)]]; simpl in *.
    + now rewrite Hsame.
    + now rewrite Happ, by_user_snoc_assistant.
  - destruct Hacc as (new & Hf & Hlen & Hall). simpl in Hf, Hlen.
    exists new. simpl. rewrite fetched_clearToken. auto.
Qed.

(** X13. However a chat-ui panel is used (mount, typing, Send, Cmd/Ctrl+Enter,
    requests settling in any order and with any outcome, logout), the
    requests it has issued are as many as the user messages in its log, and
    each of them carries a bearer token: the panel never sends an
    unauthenticated request, and never shows a question it did not send. *)
Theorem panel_requests_match_user_messages
        (w : World) (es : list PanelEvent) :
  exists new,
    fetched (snd (panel_run w es)) = (fetched w ++ new)%list
    /\ length new = length (by_user (ChatUI.messages (fst (panel_run w es))))
    /\ Forall authorized new.
Proof.
  unfold panel_run.
  assert (Hgen : forall c, accounted w c ->
                           accounted w (fold_left panel_step es c)).
  { induction es as [|e es IH]; intros c Hc; simpl; [exact Hc|].
    apply IH. now apply panel_step_accounted. }
  apply Hgen. exists []. simpl. rewrite app_nil_r. auto.
Qed.

Lemma panel_step_log_grows (c : ChatUI.State * World) (e : PanelEvent) :
  ChatUI.messages (fst c) `prefix_of` ChatUI.messages (fst (panel_step c e)).
Proof.
  destruct c as [st w].
  assert (Hcall : forall uuid,
             ChatUI.messages st
               `prefix_of`
               ChatUI.messages (fst (ChatUI.sendMessage_call uuid st w))).
  { intros uuid.
    destruct (ChatUI_call_cases uuid st w)
      as [-> | (m & r & _ & Hlog & _)]; [reflexivity|].
    rewrite Hlog. now apply prefix_app_r. }
  destruct e as [|v|uuid|uuid|uuid out|]; simpl.
  - unfold ChatUI.mount.
    destruct (negb (held (AuthClient.getToken w))); reflexivity.
  - unfold ChatUI.change_input.
    destruct (ChatUI.textarea_disabled st); reflexivity.
  - unfold ChatUI.click_send.
    destruct (ChatUI.button_disabled st); [reflexivity|apply Hcall].
  - unfold ChatUI.key_send.
    destruct (ChatUI.textarea_disabled st); [reflexivity|apply Hcall].
  - destruct (ChatUI_settle_log uuid out st w)
      as [_ [Hsame | (a & _ & Happ)]]; simpl in *.
    + now rewrite Hsame.
    + rewrite Happ. now apply prefix_app_r.
  - reflexivity.
Qed.

(** X14. The chat log is append-only. Whatever happens to a chat-ui panel
    after a point in time, the log it had then is a prefix of the log it has
    later; and neither part of the chat page's [sendMessage] removes or
    reorders a message. *)
Theorem chat_log_is_append_only :
  (forall w es1 es2,
      ChatUI.messages (fst (panel_run w es1))
        `prefix_of` ChatUI.messages (fst (panel_run w (es1 ++ es2))))
  /\ (forall sp w,
        ChatPage.messages sp
          `prefix_of` ChatPage.messages (fst (ChatPage.sendMessage_call sp w)))
  /\ (forall out sp w,
        ChatPage.messages sp
          `prefix_of`
          ChatPage.messages (fst (ChatPage.sendMessage_settle out sp w))).
Proof.
  split; [|split].
  - intros w es1 es2. unfold panel_run. rewrite fold_left_app.
    generalize (fold_left panel_step es1 (ChatUI.initial, w)).
    induction es2 as [|e es IH]; intros c; simpl; [reflexivity|].
    etransitivity; [apply (panel_step_log_grows c e)|apply IH].
  - intros sp w. unfold ChatPage.sendMessage_call.
    destruct (negb (str_truthy (trim (ChatPage.input sp)))); simpl;
      [reflexivity|]. now apply prefix_app_r.
  - intros out sp w.
    destruct (ChatPage_settle_log out sp w)
      as [_ [Hsame | (a & _ & Happ)]]; simpl in *.
    + now rewrite Hsame.
    + rewrite Happ. now apply prefix_app_r.
Qed.

(** ** The entry form *)

Lemma authRequest_settle_failed (out : FetchOutcome) :
  failed out = true ->
  exists m, truthy m = true
            /\ AuthForm.authRequest_settle out = VObj {[ "error" := m ]}.
Proof.
  destruct out as [res|e]; simpl; intros Hf.
  - rewrite Hf. eexists. split; [|reflexivity].
    now apply truthy_or_else_r.
  - eexists. split; [|reflexivity]. now apply truthy_or_else_r.
Qed.

Lemma authRequest_settle_ok (res : Response) (data : Val) :
  ok res = true ->
  json res = Fulfilled data ->
  AuthForm.authRequest_settle (Fulfilled res) = data.
Proof. intros Hok Hjson. simpl. now rewrite Hok, Hjson. Qed.

Lemma AuthClient_setToken_frame (t : string) (w : World) :
  pushed (AuthClient.setToken t w) = pushed w
  /\ fetched (AuthClient.setToken t w) = fetched w.
Proof.
  unfold AuthClient.setToken, localStorage_setItem.
  destruct (has_window w); simpl; [|auto].
  destruct (setItem _ _ _); auto.
Qed.

Lemma AuthForm_setToken_value_frame
      (conv : Val -> option string) (v : Val) (w : World) :
  pushed (AuthForm.setToken_value conv v w) = pushed w
  /\ fetched (AuthForm.setToken_value conv v w) = fetched w.
Proof.
  unfold AuthForm.setToken_value.
  destruct (DOMString conv v); [apply AuthClient_setToken_frame|auto].
Qed.



(** X16. How a submit of the entry form ends. The form is never left
    loading. On a failed request (transport error or a status outside
    200..299) it records a truthy error and leaves the world as it was. It
    changes the world in one case only: the result has no truthy [error] and
    a truthy [access_token]; then it records no error and pushes [/chat]. So
    the form never both shows an error and navigates. *)
Theorem AuthForm_submit_outcome
        (conv : Val -> option string) (out : FetchOutcome)
        (st : AuthForm.State) (w : World) :
  let r := AuthForm.onSubmit_settle conv out st w in
  AuthForm.loading (fst r) = false
  /\ (if failed out
      then truthy (AuthForm.error (fst r)) = true /\ snd r = w
      else True)
  /\ (snd r = w
      \/ (truthy (get (AuthForm.authRequest_settle out) "error") = false
          /\ truthy (get (AuthForm.authRequest_settle out) "access_token")
             = true
          /\ AuthForm.error (fst r) = AuthForm.error st
          /\ pushed (snd r) = (pushed w ++ ["/chat"])%list
          /\ fetched (snd r) = fetched w)).
Proof.
  intros r. subst r. unfold AuthForm.onSubmit_settle.
  split; [|split].
  - destruct (AuthForm.authRequest_settle out); simpl; try reflexivity;
      repeat match goal with
        | |- context [if ?b then _ else _] => destruct b
        end; reflexivity.
  - destruct (failed out) eqn:Hf; [|exact I].
    destruct (authRequest_settle_failed out Hf) as (m & Hm & ->).
    unfold get. rewrite lookup_singleton_eq. simpl. rewrite Hm. simpl.
    split; [exact Hm|reflexivity].
  - destruct (AuthForm.authRequest_settle out) as [| | | | | |m] eqn:Hres;
      simpl; try (now left).
    + destruct (truthy (default VUndef (m !! "error"))) eqn:He;
        [now left|].
      destruct (truthy (default VUndef (m !! "access_token"))) eqn:Ht;
        [|now left].
      right. simpl.
      destruct (AuthForm_setToken_value_frame
                  conv (default VUndef (m !! "access_token")) w) as [Hp Hf].
      repeat split; [now rewrite Hp|exact Hf].
Qed.

(** X17. Logging in through the entry form opens the chat. On a 2xx
    response whose body has no truthy [error] and a non-empty string
    [access_token], the form stores that token through auth-client and
    pushes [/chat]; where the storage takes the write, the chat-ui panel
    mounted next holds the token instead of leaving for the entry view, and
    its requests carry it as bearer. *)
Theorem AuthForm_login_opens_chat
        (conv : Val -> option string) (res : Response) (data : Val)
        (t uuid v : string) (st : AuthForm.State) (w : World) :
  ok res = true ->
  json res = Fulfilled data ->
  truthy (get data "error") = false ->
  get data "access_token" = VStr t ->
  str_truthy t = true ->
  storage_usable w = true ->
  str_truthy (trim v) = true ->
  let r := AuthForm.onSubmit_settle conv (Fulfilled res) st w in
  let panel := ChatUI.mount ChatUI.initial (snd r) in
  snd r = router_push "/chat" (AuthClient.setToken t w)
  /\ AuthForm.error (fst r) = AuthForm.error st
  /\ panel = (ChatUI.setTokenState (Some t) ChatUI.initial, snd r)
  /\ exists q,
      fetched (snd (ChatUI.sendMessage_call uuid
                      (ChatUI.setInput v (fst panel)) (snd panel)))
      = (fetched w ++ [q])%list
      /\ headers q !! "Authorization" = Some ("Bearer " ++ t).
Proof.
  intros Hok Hjson Herr Htok Ht Hu Hv r panel. subst panel r.
  unfold AuthForm.onSubmit_settle.
  rewrite (authRequest_settle_ok res data Hok Hjson).
  destruct data as [| | | | | |m]; try discriminate Htok.
  rewrite Herr, Htok. simpl. rewrite Ht.
  unfold AuthForm.setToken_value. simpl.
  assert (Hget : AuthClient.getToken
                   (router_push "/chat" (AuthClient.setToken t w)) = Some t).
  { rewrite (AuthClient_setToken_usable t w Hu).
    destruct (usable_parts w Hu) as (Hw & _).
    unfold AuthClient.getToken, localStorage_getItem, getItem. simpl.
    rewrite Hw. simpl. apply lookup_insert_eq. }
  split; [reflexivity|]. split; [reflexivity|].
  unfold ChatUI.mount. rewrite Hget. simpl. rewrite Ht. simpl.
  split; [reflexivity|].
  unfold ChatUI.sendMessage_call. simpl. rewrite Hv, Ht. simpl.
  destruct (AuthClient_setToken_frame t w) as [_ Hf]. rewrite Hf.
  eexists. split; [reflexivity|]. simpl.
  unfold ChatUI.chat_headers. rewrite lookup_insert_ne by discriminate.
  apply lookup_singleton_eq.
Qed.

Lemma AuthForm_login_opens_chat_witness :
  ok login_ok = true
  /\ storage_usable browser = true
  /\ snd (AuthForm.onSubmit_settle no_conversion (Fulfilled login_ok)
            (fst (AuthForm.onSubmit_call filled_form browser))
            (snd (AuthForm.onSubmit_call filled_form browser)))
     = router_push "/chat"
         (AuthClient.setToken "tok123"
            (snd (AuthForm.onSubmit_call filled_form browser)))
  /\ ChatUI.token
       (fst (ChatUI.mount ChatUI.initial
               (snd (AuthForm.onSubmit_settle no_conversion
                       (Fulfilled login_ok)
                       (fst (AuthForm.onSubmit_call filled_form browser))
                       (snd (AuthForm.onSubmit_call filled_form browser))))))
     = Some "tok123".
Proof.
  pose proof (AuthForm_login_opens_chat
                no_conversion login_ok
                (VObj (<[ "access_token" := VStr "tok123" ]>
                       {[ "token_type" := VStr "bearer" ]}))
                "tok123" "id-1" "hello"
                (fst (AuthForm.onSubmit_call filled_form browser))
                (snd (AuthForm.onSubmit_call filled_form browser))
                eq_refl eq_refl eq_refl eq_refl eq_refl eq_refl eq_refl) as H.
  cbv zeta in H. destruct H as (H1 & _ & H3 & _).
  split; [reflexivity|]. split; [reflexivity|]. split; [exact H1|].
  now rewrite H3.
Defined.

(** X18. The entry form asks for a token in either mode. On a 2xx response
    whose body (an empty object when it is not JSON) has neither a truthy
    [error] nor a truthy [access_token], it records
    [No access token returned from server.] and leaves the world as it was,
    in register mode as in login mode. On a 2xx response whose body is the
    JSON value [null], reading the result throws: the form ends idle, with
    the error state and the world as they were. *)
Theorem AuthForm_success_without_token
        (conv : Val -> option string) (res : Response)
        (st : AuthForm.State) (w : World) :
  ok res = true ->
  let data := match json res with
              | Fulfilled d => d
              | Rejected _ => VObj ∅
              end in
  let r := AuthForm.onSubmit_settle conv (Fulfilled res) st w in
  (data = VNull -> r = (AuthForm.setLoading false st, w))
  /\ (data <> VNull ->
      data <> VUndef ->
      truthy (get data "error") = false ->
      truthy (get data "access_token") = false ->
      r = (AuthForm.setError (VStr "No access token returned from server.")
             (AuthForm.setLoading false st), w)).
Proof.
  intros Hok data r. subst r.
  assert (Hres : AuthForm.authRequest_settle (Fulfilled res) = data).
  { simpl. now rewrite Hok. }
  unfold AuthForm.onSubmit_settle. rewrite Hres. clear Hres.
  split.
  - intros ->. reflexivity.
  - intros Hn Hu He Ht. rewrite He, Ht.
    destruct data; try reflexivity; congruence.
Qed.

Lemma AuthForm_success_without_token_witness :
  ok registered = true
  /\ AuthForm.onSubmit_settle no_conversion (Fulfilled registered)
       (AuthForm.setLoading true (AuthForm.setMode AuthForm.register
                                    filled_form))
       browser
     = (AuthForm.setError (VStr "No access token returned from server.")
          (AuthForm.setMode AuthForm.register filled_form), browser)
  /\ ok null_body = true
  /\ AuthForm.onSubmit_settle no_conversion (Fulfilled null_body)
       (AuthForm.setLoading true filled_form) browser
     = (filled_form, browser).
Proof.
  pose proof (AuthForm_success_without_token
                no_conversion registered
                (AuthForm.setLoading true
                   (AuthForm.setMode AuthForm.register filled_form))
                browser eq_refl) as H1.
  pose proof (AuthForm_success_without_token
                no_conversion null_body
                (AuthForm.setLoading true filled_form) browser eq_refl) as H2.
  cbv zeta in H1, H2. destruct H1 as [_ H1]. destruct H2 as [H2 _].
  split; [reflexivity|]. split.
  - apply H1; [discriminate|discriminate|reflexivity|reflexivity].
  - split; [reflexivity|]. apply H2. reflexivity.
Defined.

(** ** The login and register forms *)

Lemma loginRequest_settle_token (res : Response) (data : Val) (t : string) :
  ok res = true ->
  json res = Fulfilled data ->
  get data "access_token" = VStr t ->
  str_truthy t = true ->
  Api.loginRequest_settle (Fulfilled res) = Fulfilled data.
Proof.
  intros Hok Hjson Htok Ht. unfold Api.loginRequest_settle.
  rewrite Hok, Hjson, Htok. simpl. now rewrite Ht.
Qed.

Lemma LoginForm_setToken_value_frame
      (conv : Val -> option string) (v : Val) (w : World) :
  pushed (LoginForm.setToken_value conv v w) = pushed w
  /\ fetched (LoginForm.setToken_value conv v w) = fetched w
  /\ AuthClient.getToken (LoginForm.setToken_value conv v w)
     = AuthClient.getToken w.
Proof.
  unfold LoginForm.setToken_value, UseToken.setToken, localStorage_setItem,
    setItem.
  destruct (DOMString conv v) as [s|]; simpl; [|auto].
  destruct (has_window w) eqn:Hw; simpl; [|auto].
  destruct (access_denied (localStorage w)) eqn:Hd; simpl; [auto|].
  destruct (quota_exceeded (localStorage w)); simpl; [auto|].
  split; [reflexivity|]. split; [reflexivity|].
  unfold AuthClient.getToken, localStorage_getItem, getItem. simpl.
  rewrite Hw, Hd. simpl. now apply lookup_insert_ne.
Qed.


(** X20. Logging in through the login form opens the chat page. When
    [loginRequest] returns a body whose [access_token] is the non-empty
    string [t] and the storage takes the write, the token is stored under
    the key of [useToken]; once the scheduled push has run, the chat page
    mounted next holds [t] and its requests carry it as bearer. *)
Theorem LoginForm_login_opens_chat_page
        (conv : Val -> option string) (res : Response) (data : Val)
        (t v : string) (st : LoginForm.State) (w : World) :
  ok res = true ->
  json res = Fulfilled data ->
  get data "access_token" = VStr t ->
  str_truthy t = true ->
  storage_usable w = true ->
  str_truthy (trim v) = true ->
  let r := LoginForm.onSubmit_settle conv (Fulfilled res) st w in
  let w2 := fold_right fire (snd (fst r)) (snd r) in
  let page := ChatPage.setInput v (ChatPage.mount ChatPage.initial w2) in
  snd (fst r) = snd (UseToken.setToken t w UseToken.initial)
  /\ pushed w2 = (pushed w ++ ["/chat"])%list
  /\ ChatPage.token page = Some t
  /\ exists q,
      fetched (snd (ChatPage.sendMessage_call page w2))
      = (fetched w ++ [q])%list
      /\ headers q !! "Authorization" = Some ("Bearer " ++ t).
Proof.
  intros Hok Hjson Htok Ht Hu Hv r w2 page. subst page w2 r.
  destruct (usable_parts w Hu) as (Hw & Hd & Hq).
  unfold LoginForm.onSubmit_settle.
  rewrite (loginRequest_settle_token res data t Hok Hjson Htok Ht).
  cbn [fst snd fold_right]. rewrite Htok.
  unfold LoginForm.setToken_value. cbn [DOMString].
  rewrite (UseToken_setToken_usable t w UseToken.initial Hu). cbn [snd].
  split; [reflexivity|]. split; [reflexivity|].
  assert (Hread : UseToken.mount
                    (fire {| pushes := "/chat"; delay := 500 |}
                       (with_storage
                          {| items := <[ UseToken.TOKEN_KEY := t ]>
                                        (items (localStorage w));
                             access_denied := false;
                             quota_exceeded := false |} w))
                    UseToken.initial = Some t).
  { unfold UseToken.mount, localStorage_getItem, getItem. simpl.
    rewrite Hw, lookup_insert_eq. now rewrite Ht. }
  unfold ChatPage.mount. cbn [ChatPage.token ChatPage.initial].
  rewrite Hread. split; [reflexivity|].
  unfold ChatPage.sendMessage_call. cbn [ChatPage.input ChatPage.setInput].
  rewrite Hv. simpl.
  eexists. split; [reflexivity|]. simpl.
  unfold ChatPage.token_or_undefined, Api.chatRequest_headers. simpl.
  rewrite Ht. simpl. rewrite Ht. apply lookup_insert_eq.
Qed.

Lemma LoginForm_login_opens_chat_page_witness :
  ok login_ok = true
  /\ storage_usable browser = true
  /\ ChatPage.token
       (ChatPage.mount ChatPage.initial
          (fold_right fire
             (snd (fst (LoginForm.onSubmit_settle no_conversion
                          (Fulfilled login_ok) LoginForm.initial browser)))
             (snd (LoginForm.onSubmit_settle no_conversion
                     (Fulfilled login_ok) LoginForm.initial browser))))
     = Some "tok123"
  /\ pushed
       (fold_right fire
          (snd (fst (LoginForm.onSubmit_settle no_conversion
                       (Fulfilled login_ok) LoginForm.initial browser)))
          (snd (LoginForm.onSubmit_settle no_conversion
                  (Fulfilled login_ok) LoginForm.initial browser)))
     = ["/chat"].
Proof.
  pose proof (LoginForm_login_opens_chat_page
                no_conversion login_ok
                (VObj (<[ "access_token" := VStr "tok123" ]>
                       {[ "token_type" := VStr "bearer" ]}))
                "tok123" "hello" LoginForm.initial browser
                eq_refl eq_refl eq_refl eq_refl eq_refl eq_refl) as H.
  cbv zeta in H. destruct H as (_ & H2 & H3 & _).
  split; [reflexivity|]. split; [reflexivity|]. split; [exact H3|exact H2].
Defined.

(** X21. The login form and chat-ui do not share a token. Whatever
    [loginRequest] returned, a submit of the login form leaves what
    [getToken] of auth-client reads as it was; so when no token was stored
    through auth-client before, a chat-ui panel mounted after the login (and
    after the scheduled push of [/chat]) holds no token, leaves for the
    entry view, and rejects every call of [sendMessage]. *)
Theorem LoginForm_login_does_not_open_chat_ui
        (conv : Val -> option string) (out : FetchOutcome)
        (st : LoginForm.State) (w : World) :
  held (AuthClient.getToken w) = false ->
  let r := LoginForm.onSubmit_settle conv out st w in
  let w2 := fold_right fire (snd (fst r)) (snd r) in
  AuthClient.getToken w2 = AuthClient.getToken w
  /\ ChatUI.mount ChatUI.initial w2 = (ChatUI.initial, router_push "/" w2).
Proof.
  intros Hh r w2. subst w2 r.
  assert (Hget : AuthClient.getToken
                   (fold_right fire
                      (snd (fst (LoginForm.onSubmit_settle conv out st w)))
                      (snd (LoginForm.onSubmit_settle conv out st w)))
                 = AuthClient.getToken w).
  { unfold LoginForm.onSubmit_settle.
    destruct (Api.loginRequest_settle out) as [data|e]; simpl; [|reflexivity].
    apply (LoginForm_setToken_value_frame conv (get data "access_token") w). }
  split; [exact Hget|].
  unfold ChatUI.mount. now rewrite Hget, Hh.
Qed.

Lemma LoginForm_login_does_not_open_chat_ui_witness :
  held (AuthClient.getToken browser) = false
  /\ UseToken.read
       (snd (fst (LoginForm.onSubmit_settle no_conversion
                    (Fulfilled login_ok) LoginForm.initial browser)))
     = Some "tok123"
  /\ pushed
       (snd (ChatUI.mount ChatUI.initial
               (fold_right fire
                  (snd (fst (LoginForm.onSubmit_settle no_conversion
                               (Fulfilled login_ok) LoginForm.initial
                               browser)))
                  (snd (LoginForm.onSubmit_settle no_conversion
                          (Fulfilled login_ok) LoginForm.initial browser)))))
     = ["/chat"; "/"].
Proof.
  pose proof (LoginForm_login_does_not_open_chat_ui
                no_conversion (Fulfilled login_ok) LoginForm.initial browser
                eq_refl) as H.
  cbv zeta in H. destruct H as [_ H].
  split; [reflexivity|]. split; [reflexivity|]. rewrite H. reflexivity.
Defined.

(** X22. Registering never stores a token and never navigates. A submit of
    the register form issues one POST to [/register] and leaves the storage
    and the router alone; when the request has settled the form is not
    loading and shows exactly one of two things: on a failed request a
    truthy error and no success text, otherwise the success text and no
    error, whether or not the body was JSON. *)
Theorem RegisterForm_submit_outcome
        (out : FetchOutcome) (st : RegisterForm.State) (w : World) :
  let c := RegisterForm.onSubmit_call st w in
  let st' := RegisterForm.onSubmit_settle out (fst c) in
  (exists r,
      fetched (snd c) = (fetched w ++ [r])%list
      /\ method r = "POST"
      /\ url r = Api.API_BASE w ++ "/register"
      /\ get (body r) "email" = VStr (RegisterForm.email st)
      /\ get (body r) "password" = VStr (RegisterForm.password st))
  /\ localStorage (snd c) = localStorage w
  /\ pushed (snd c) = pushed w
  /\ RegisterForm.loading st' = false
  /\ (if failed out
      then truthy (RegisterForm.error st') = true
           /\ RegisterForm.success st' = VNull
      else RegisterForm.success st'
           = VStr "Registration successful. You can now log in."
           /\ RegisterForm.error st' = VNull).
Proof.
  intros c st'. subst st' c. simpl.
  split; [eexists; repeat split; reflexivity|].
  split; [reflexivity|]. split; [reflexivity|].
  unfold RegisterForm.onSubmit_settle.
  destruct out as [res|e]; simpl.
  - destruct (ok res); simpl; [auto|].
    split; [reflexivity|]. split; [|reflexivity]. reflexivity.
  - split; [reflexivity|]. split; [|reflexivity].
    now apply truthy_or_else_r.
Qed.

(** ** The navigation bar *)

(** X23. Logging out through the navigation bar does not reach the chat page
    it sits on. Each component has its own [useToken] state: after both have
    mounted with a stored token [t], a click on Logout empties the bar's
    state (its button goes) and the storage, but the chat page still holds
    [t], and its next request still carries [Bearer t]; only a chat page
    mounted afterwards holds no token. *)
Theorem Navbar_logout_leaves_chat_page_token
        (t : string) (sp : ChatPage.State) (w : World) :
  has_window w = true ->
  access_denied (localStorage w) = false ->
  items (localStorage w) !! UseToken.TOKEN_KEY = Some t ->
  str_truthy t = true ->
  str_truthy (trim (ChatPage.input sp)) = true ->
  let page := ChatPage.mount sp w in
  let bar := Navbar.mount w UseToken.initial in
  let out := Navbar.click_logout w bar in
  Navbar.logout_shown bar = true
  /\ Navbar.logout_shown (fst out) = false
  /\ UseToken.read (snd out) = None
  /\ ChatPage.token page = Some t
  /\ (exists q,
        fetched (snd (ChatPage.sendMessage_call page (snd out)))
        = (fetched w ++ [q])%list
        /\ headers q !! "Authorization" = Some ("Bearer " ++ t))
  /\ ChatPage.token (ChatPage.mount ChatPage.initial (snd out)) = None.
Proof.
  intros Hw Hd Hitem Ht Hin page bar out. subst out bar page.
  assert (Hm : forall tok, UseToken.mount w tok = Some t).
  { intros tok. unfold UseToken.mount, localStorage_getItem, getItem.
    now rewrite Hw, Hd, Hitem, Ht. }
  unfold Navbar.mount, ChatPage.mount. rewrite !Hm.
  unfold Navbar.click_logout, Navbar.logout_shown. simpl. rewrite Ht.
  pose proof (UseToken_read_clearToken w (Some t)) as Hread.
  split; [reflexivity|]. split; [reflexivity|]. split; [exact Hread|].
  split; [reflexivity|]. split.
  - unfold ChatPage.sendMessage_call. simpl. rewrite Hin. simpl.
    unfold localStorage_removeItem, removeItem. rewrite Hw, Hd. simpl.
    eexists. split; [reflexivity|]. simpl.
    unfold ChatPage.token_or_undefined, Api.chatRequest_headers. simpl.
    rewrite Ht. simpl. rewrite Ht. apply lookup_insert_eq.
  - unfold UseToken.read in Hread. simpl in *. exact Hread.
Qed.

Lemma Navbar_logout_leaves_chat_page_token_witness :
  items (localStorage form_browser) !! UseToken.TOKEN_KEY = Some "tok123"
  /\ UseToken.read
       (snd (Navbar.click_logout form_browser
               (Navbar.mount form_browser UseToken.initial)))
     = None
  /\ exists q,
      fetched
        (snd (ChatPage.sendMessage_call
                (ChatPage.mount ChatPage.initial form_browser)
                (snd (Navbar.click_logout form_browser
                        (Navbar.mount form_browser UseToken.initial)))))
      = (fetched form_browser ++ [q])%list
      /\ headers q !! "Authorization" = Some ("Bearer " ++ "tok123").
Proof.
  pose proof (Navbar_logout_leaves_chat_page_token
                "tok123" ChatPage.initial form_browser
                eq_refl eq_refl eq_refl eq_refl eq_refl) as H.
  cbv zeta in H. destruct H as (_ & _ & H3 & _ & H5 & _).
  split; [reflexivity|]. split; [exact H3|exact H5].
Defined.

(** ** One request in flight *)

Lemma issued_same (w w' : World) : fetched w' = fetched w -> issued w w' = 0.
Proof. unfold issued. intros ->. lia. Qed.

Lemma issued_one (w w' : World) (r : Request) :
  fetched w' = (fetched w ++ [r])%list -> issued w w' = 1.
Proof. unfold issued. intros ->. rewrite length_app. simpl. lia. Qed.

(** Through an enabled control, [sendMessage] of chat-ui starts from an idle
    panel and either does nothing or issues one request and raises the
    flag. *)
Lemma ChatUI_call_flag (uuid : string) (st : ChatUI.State) (w : World) :
  ChatUI.sendMessage_call uuid st w = (st, w)
  \/ (ChatUI.sending (fst (ChatUI.sendMessage_call uuid st w)) = true
      /\ exists r, fetched (snd (ChatUI.sendMessage_call uuid st w))
                   = (fetched w ++ [r])%list).
Proof.
  unfold ChatUI.sendMessage_call.
  destruct (negb (str_truthy (trim (ChatUI.input st)))
            || negb (held (ChatUI.token st))); [now left|].
  right. simpl. eauto.
Qed.

Lemma panel_tracked_step_flag (c : ChatUI.State * World * nat)
      (e : PanelEvent) :
  snd c = flag (ChatUI.sending (fst (fst c))) ->
  snd (panel_tracked_step c e)
  = flag (ChatUI.sending (fst (fst (panel_tracked_step c e)))).
Proof.
  destruct c as [[st w] n]. simpl. intros ->.
  assert (Hcall : forall uuid,
             ChatUI.sending st = false ->
             0 + issued w (snd (ChatUI.sendMessage_call uuid st w))
             = flag (ChatUI.sending
                       (fst (ChatUI.sendMessage_call uuid st w)))).
  { intros uuid Hs.
    destruct (ChatUI_call_flag uuid st w) as [-> | (Hs' & r & Hr)].
    - simpl. rewrite Hs. now rewrite issued_same.
    - rewrite Hs'. now rewrite (issued_one _ _ r Hr). }
  destruct e as [|v|uuid|uuid|uuid out|]; unfold panel_tracked_step; simpl.
  - unfold ChatUI.mount.
    destruct (negb (held (AuthClient.getToken w))); simpl;
      rewrite issued_same by reflexivity; lia.
  - unfold ChatUI.change_input.
    destruct (ChatUI.textarea_disabled st); simpl;
      rewrite issued_same by reflexivity; lia.
  - unfold ChatUI.click_send, ChatUI.button_disabled.
    destruct (ChatUI.sending st) eqn:Hs.
    + rewrite orb_true_r. simpl. rewrite Hs, issued_same by reflexivity.
      simpl. lia.
    + destruct (negb (held (ChatUI.token st)) || false
                || negb (str_truthy (trim (ChatUI.input st)))).
      * simpl. rewrite Hs, issued_same by reflexivity. reflexivity.
      * now apply Hcall.
  - unfold ChatUI.key_send, ChatUI.textarea_disabled.
    destruct (ChatUI.sending st) eqn:Hs.
    + rewrite orb_true_r. simpl. rewrite Hs, issued_same by reflexivity.
      simpl. lia.
    + destruct (negb (held (ChatUI.token st)) || false).
      * simpl. rewrite Hs, issued_same by reflexivity. reflexivity.
      * now apply Hcall.
  - destruct (ChatUI.sending st) eqn:Hs; simpl.
    + destruct (ChatUI_settle_log uuid out st w) as [Hidle _].
      simpl in Hidle. now rewrite Hidle.
    + now rewrite Hs.
  - rewrite issued_same by apply fetched_clearToken. lia.
Qed.

Lemma ChatPage_settle_fetched (out : FetchOutcome) (sp : ChatPage.State)
      (w : World) :
  snd (ChatPage.sendMessage_settle out sp w) = w.
Proof.
  unfold ChatPage.sendMessage_settle.
  destruct (Api.chatRequest_settle out) as [d|e]; [|reflexivity].
  destruct (get d "reasoning_steps"); reflexivity.
Qed.

Lemma page_tracked_step_flag (c : ChatPage.State * World * nat)
      (e : PageEvent) :
  snd c = flag (ChatPage.loading (fst (fst c))) ->
  snd (page_tracked_step c e)
  = flag (ChatPage.loading (fst (fst (page_tracked_step c e)))).
Proof.
  destruct c as [[sp w] n]. simpl. intros ->.
  destruct e as [|v| |out]; unfold page_tracked_step; simpl.
  - rewrite issued_same by reflexivity. lia.
  - unfold ChatPage.change_input.
    destruct (ChatPage.textarea_disabled sp); simpl;
      rewrite issued_same by reflexivity; lia.
  - unfold ChatPage.submit_form, ChatPage.button_disabled.
    destruct (ChatPage.loading sp) eqn:Hl; simpl.
    + rewrite Hl, issued_same by reflexivity. simpl. lia.
    + unfold ChatPage.sendMessage_call.
      destruct (negb (str_truthy (trim (ChatPage.input sp)))); simpl.
      * rewrite Hl, issued_same by reflexivity. reflexivity.
      * unfold issued. simpl. rewrite length_app. simpl. lia.
  - destruct (ChatPage.loading sp) eqn:Hl; simpl.
    + destruct (ChatPage_settle_log out sp w) as [Hidle _].
      simpl in Hidle. now rewrite Hidle.
    + now rewrite Hl.
Qed.

(** X24. Through the view, at most one chat request is in flight at a time.
    For every sequence of events on a chat-ui panel or on a chat page
    (mount, typing, submitting through the controls, a pending request
    settling with any outcome, logout), the number of requests issued and
    not yet settled is one while the in-flight flag is on and none while it
    is off. *)
Theorem one_request_in_flight :
  (forall w es,
      snd (panel_tracked_run w es)
      = flag (ChatUI.sending (fst (fst (panel_tracked_run w es)))))
  /\ (forall w es,
        snd (page_tracked_run w es)
        = flag (ChatPage.loading (fst (fst (page_tracked_run w es))))).
Proof.
  split.
  - intros w es. unfold panel_tracked_run.
    assert (Hgen : forall c,
               snd c = flag (ChatUI.sending (fst (fst c))) ->
               snd (fold_left panel_tracked_step es c)
               = flag (ChatUI.sending
                         (fst (fst (fold_left panel_tracked_step es c))))).
    { induction es as [|e es IH]; intros c Hc; simpl; [exact Hc|].
      apply IH. now apply panel_tracked_step_flag. }
    now apply Hgen.
  - intros w es. unfold page_tracked_run.
    assert (Hgen : forall c,
               snd c = flag (ChatPage.loading (fst (fst c))) ->
               snd (fold_left page_tracked_step es c)
               = flag (ChatPage.loading
                         (fst (fst (fold_left page_tracked_step es c))))).
    { induction es as [|e es IH]; intros c Hc; simpl; [exact Hc|].
      apply IH. now apply page_tracked_step_flag. }
    now apply Hgen.
Qed.

(** ** Login, through the API client and through the entry form *)

Lemma AuthForm_failed_request (conv : Val -> option string) (res : Response)
      (st : AuthForm.State) (w : World) :
  ok res = false ->
  AuthForm.onSubmit_settle conv (Fulfilled res) st w
  = (AuthForm.setError
       (or_else (or_else (get (body_or_empty res) "detail")
                         (get (body_or_empty res) "error"))
                (VStr ("Request failed with status "
                       ++ num_to_string (status res))))
       (AuthForm.setLoading false st), w).
Proof.
  intros Hok. unfold AuthForm.onSubmit_settle, AuthForm.authRequest_settle.
  rewrite Hok. cbn [negb]. fold (body_or_empty res).
  set (m := or_else _ _).
  assert (Hm : truthy m = true) by now apply truthy_or_else_r.
  unfold get at 1 2. rewrite !lookup_singleton_eq. simpl. now rewrite Hm.
Qed.

Lemma AuthForm_world_changes_on_token_only
      (conv : Val -> option string) (out : FetchOutcome)
      (st : AuthForm.State) (w : World) :
  snd (AuthForm.onSubmit_settle conv out st w) <> w ->
  exists res data,
    out = Fulfilled res
    /\ ok res = true
    /\ json res = Fulfilled data
    /\ truthy (get data "access_token") = true.
Proof.
  intros Hw.
  destruct (failed out) eqn:Hf.
  - exfalso. apply Hw. unfold AuthForm.onSubmit_settle.
    destruct (authRequest_settle_failed out Hf) as (m & Hm & ->).
    unfold get. rewrite lookup_singleton_eq. simpl. now rewrite Hm.
  - destruct out as [res|e]; [|discriminate Hf]. simpl in Hf.
    apply negb_false_iff in Hf.
    destruct (json res) as [data|e] eqn:Hjson.
    + exists res, data.
      split; [reflexivity|]. split; [assumption|]. split; [assumption|].
      unfold AuthForm.onSubmit_settle in Hw.
      rewrite (authRequest_settle_ok res data Hf Hjson) in Hw.
      destruct (truthy (get data "access_token")) eqn:Ht; [reflexivity|].
      exfalso. apply Hw.
      destruct data; simpl in *; try reflexivity.
      destruct (truthy (default VUndef (_ !! "error"))); reflexivity.
    + exfalso. apply Hw. unfold AuthForm.onSubmit_settle. simpl.
      rewrite Hf, Hjson. reflexivity.
Qed.

(** C7, as the code has it. [loginRequest] of the API client issues one
    request; it fails on every status outside 200..299 with an error that
    carries the status code and the backend's message (the body text, else
    the status text); on a 2xx response whose body has no truthy
    [access_token] it fails as well; and it returns, with the body that holds
    the token, exactly when the response is 2xx, its body is JSON and
    [access_token] is there. The entry form, which logs in through its own
    [authRequest], records on every status outside 200..299 the body's
    [detail], else its [error], else [Request failed with status <code>], so
    the status code is shown only when the body has neither, and leaves the
    world as it was; on a 2xx response whose body is an object with neither
    a truthy [error] nor a truthy [access_token] it records
    [No access token returned from server.]; and it stores a token or
    navigates only when the response is 2xx and its body has a truthy
    [access_token]. *)
Theorem C7_login_fails_unless_success_with_token :
  (forall email password w, exists r,
      fetched (Api.loginRequest_call email password w)
      = (fetched w ++ [r])%list)
  /\ (forall res,
        ok res = false ->
        Api.loginRequest_settle (Fulfilled res)
        = Rejected (Error ("Login failed (" ++ num_to_string (status res)
                           ++ "): " ++ failure_text res)))
  /\ (forall res data,
        ok res = true ->
        json res = Fulfilled data ->
        truthy (get data "access_token") = false ->
        Api.loginRequest_settle (Fulfilled res)
        = Rejected (Error "Login response missing access_token."))
  /\ (forall res data,
        ok res = true ->
        json res = Fulfilled data ->
        truthy (get data "access_token") = true ->
        Api.loginRequest_settle (Fulfilled res) = Fulfilled data)
  /\ (forall out data,
        Api.loginRequest_settle out = Fulfilled data ->
        exists res,
          out = Fulfilled res
          /\ ok res = true
          /\ json res = Fulfilled data
          /\ truthy (get data "access_token") = true)
  /\ (forall e, Api.loginRequest_settle (Rejected e) = Rejected e)
  /\ (forall conv res st w,
        ok res = false ->
        AuthForm.onSubmit_settle conv (Fulfilled res) st w
        = (AuthForm.setError
             (or_else (or_else (get (body_or_empty res) "detail")
                               (get (body_or_empty res) "error"))
                      (VStr ("Request failed with status "
                             ++ num_to_string (status res))))
             (AuthForm.setLoading false st), w)
        /\ truthy
             (AuthForm.error
                (fst (AuthForm.onSubmit_settle conv (Fulfilled res) st w)))
           = true)
  /\ (forall conv res m st w,
        ok res = true ->
        json res = Fulfilled (VObj m) ->
        truthy (get (VObj m) "error") = false ->
        truthy (get (VObj m) "access_token") = false ->
        AuthForm.onSubmit_settle conv (Fulfilled res) st w
        = (AuthForm.setError (VStr "No access token returned from server.")
             (AuthForm.setLoading false st), w))
  /\ (forall conv out st w,
        snd (AuthForm.onSubmit_settle conv out st w) <> w ->
        exists res data,
          out = Fulfilled res
          /\ ok res = true
          /\ json res = Fulfilled data
          /\ truthy (get data "access_token") = true).
Proof.
  split; [|split; [|split; [|split; [|split; [|split; [|split; [|split]]]]]]].
  - intros email password w. eexists. reflexivity.
  - intros res Hok. unfold Api.loginRequest_settle, failure_text.
    rewrite Hok. simpl. now destruct (text res).
  - intros res data Hok Hjson Htok. unfold Api.loginRequest_settle.
    now rewrite Hok, Hjson, Htok.
  - intros res data Hok Hjson Htok. unfold Api.loginRequest_settle.
    now rewrite Hok, Hjson, Htok.
  - intros out data. unfold Api.loginRequest_settle.
    destruct out as [res|e]; [|discriminate].
    destruct (ok res) eqn:Hok; simpl; [|discriminate].
    destruct (json res) as [d|e] eqn:Hjson; [|discriminate].
    destruct (truthy (get d "access_token")) eqn:Htok; simpl; [|discriminate].
    intros [= <-]. exists res. auto.
  - reflexivity.
  - intros conv res st w Hok.
    rewrite (AuthForm_failed_request conv res st w Hok).
    split; [reflexivity|]. simpl. now apply truthy_or_else_r.
  - intros conv res m st w Hok Hjson He Ht.
    unfold AuthForm.onSubmit_settle.
    rewrite (authRequest_settle_ok res (VObj m) Hok Hjson).
    now rewrite He, Ht.
  - apply AuthForm_world_changes_on_token_only.
Qed.

Lemma C7_login_fails_unless_success_with_token_witness :
  (ok unauthorized = false
   /\ Api.loginRequest_settle (Fulfilled unauthorized)
      = Rejected (Error "Login failed (401): Could not validate credentials"))
  /\ (ok login_without_token = true
      /\ Api.loginRequest_settle (Fulfilled login_without_token)
         = Rejected (Error "Login response missing access_token."))
  /\ (ok login_ok = true
      /\ exists data,
          Api.loginRequest_settle (Fulfilled login_ok) = Fulfilled data
          /\ get data "access_token" = VStr "tok123")
  /\ (ok not_found = false
      /\ AuthForm.error
           (fst (AuthForm.onSubmit_settle no_conversion (Fulfilled not_found)
                   (AuthForm.setLoading true filled_form) browser))
         = VStr "Request failed with status 404")
  /\ (ok login_without_token = true
      /\ AuthForm.onSubmit_settle no_conversion
           (Fulfilled login_without_token)
           (AuthForm.setLoading true filled_form) browser
         = (AuthForm.setError (VStr "No access token returned from server.")
              filled_form, browser))
  /\ (snd (AuthForm.onSubmit_settle no_conversion (Fulfilled login_ok)
             (AuthForm.setLoading true filled_form) browser) <> browser
      /\ exists res data,
          Fulfilled login_ok = Fulfilled res
          /\ ok res = true
          /\ json res = Fulfilled data
          /\ truthy (get data "access_token") = true).
Proof.
  destruct C7_login_fails_unless_success_with_token
    as (_ & H2 & H3 & H4 & _ & _ & H7 & H8 & H9).
  assert (Hnav : snd (AuthForm.onSubmit_settle no_conversion
                        (Fulfilled login_ok)
                        (AuthForm.setLoading true filled_form) browser)
                 <> browser).
  { intros H. apply (f_equal pushed) in H. discriminate H. }
  split; [|split; [|split; [|split; [|split]]]].
  - split; [reflexivity|]. apply (H2 unauthorized). reflexivity.
  - split; [reflexivity|].
    apply (H3 login_without_token
              (VObj {[ "token_type" := VStr "bearer" ]})); reflexivity.
  - split; [reflexivity|]. eexists. split.
    + apply (H4 login_ok
                (VObj (<[ "access_token" := VStr "tok123" ]>
                       {[ "token_type" := VStr "bearer" ]}))); reflexivity.
    + reflexivity.
  - split; [reflexivity|].
    destruct (H7 no_conversion not_found
                 (AuthForm.setLoading true filled_form) browser eq_refl)
      as [Heq _].
    rewrite Heq. reflexivity.
  - split; [reflexivity|].
    apply (H8 no_conversion login_without_token
              {[ "token_type" := VStr "bearer" ]}); reflexivity.
  - split; [exact Hnav|].
    apply (H9 no_conversion (Fulfilled login_ok)
              (AuthForm.setLoading true filled_form) browser Hnav).
Defined.

(** On a 401 whose body has a [detail], the entry form shows the detail
    alone, without the status code that [loginRequest] puts in its message;
    and on a 2xx response whose body is the JSON value [null], which has no
    token, it records no error at all. *)
Lemma C7_entry_form_error_without_status_code :
  ok unauthorized = false
  /\ status unauthorized = 401%N
  /\ Api.loginRequest_settle (Fulfilled unauthorized)
     = Rejected (Error "Login failed (401): Could not validate credentials")
  /\ AuthForm.error
       (fst (AuthForm.onSubmit_settle no_conversion (Fulfilled unauthorized)
               (fst (AuthForm.onSubmit_call filled_form browser))
               (snd (AuthForm.onSubmit_call filled_form browser))))
     = VStr "Could not validate credentials"
  /\ ok null_body = true
  /\ get (body_or_empty null_body) "access_token" = VUndef
  /\ AuthForm.error
       (fst (AuthForm.onSubmit_settle no_conversion (Fulfilled null_body)
               (fst (AuthForm.onSubmit_call filled_form browser))
               (snd (AuthForm.onSubmit_call filled_form browser))))
     = VNull.
Proof. repeat split; reflexivity. Qed.
